(** * Task-assignment dashboard: view-state handlers and their properties

    A shallow embedding of the client-side handlers of the task-management
    dashboard (notifications popover, task list, task page, dashboard page).
    Every React state variable is a record field, every handler is a function
    from the values it reads (current user, Data Service responses, clock) and
    the state before to the state after, paired with the trace of effects it
    performs (requests sent to the Data Service, console output, toasts,
    navigation). *)

From Stdlib Require Import List ZArith String Ascii Bool Lia Sorted.
Import ListNotations.

Local Open Scope string_scope.
Local Open Scope Z_scope.

(** ** Shared vocabulary *)

(** JavaScript truthiness of a string: only the empty string is falsy. *)
Definition truthy (s : string) : bool := negb (String.eqb s "").

(** [a || b] on strings where [a] may be undefined. *)
Definition or_else (o : option string) (d : string) : string :=
  match o with
  | Some s => if truthy s then s else d
  | None => d
  end.

(** The double-quote character used inside notification messages. *)
Definition dquote : string := String (ascii_of_nat 34) EmptyString.

(** [type User = { id; email; name?; role? } | null] (auth-context.tsx). *)
Record User := mkUser {
  user_id : string;
  email : string;
  name : option string;
  role : option string
}.

(** The error object a Data Service call answers with. *)
Record PostgrestError := mkError { err_message : string }.

(** Column values appearing in filters and patches. *)
Inductive Value :=
| VStr (s : string)
| VBool (b : bool).

(** Row inserted into the [notifications] table. *)
Record NotificationRow := mkRow {
  row_user_id : string;
  row_message : string;
  row_type : string;
  row_read : bool;
  row_task_id : string;
  row_created_at : string
}.

(** Requests built with the Data Service client. *)
Inductive Request :=
| SelectRows (table : string) (eqs : list (string * Value))
             (orderBy : string) (ascending : bool) (limit : nat)
| UpdateRows (table : string) (patch : list (string * Value))
             (eqs : list (string * Value))
| InsertNotifications (rows : list NotificationRow)
| DeleteRows (table : string) (eqs : list (string * Value)).

(** Everything a handler does besides writing its own state, in program
    order. *)
Inductive Effect :=
| Call (r : Request)
| ConsoleError (label : string) (e : PostgrestError)
| Toast (title description : string) (destructive : bool)
| RouterPush (path : string)
| RouterRefresh
| OnTaskUpdate.

(** Answer to an update, insert or delete: [{ error }]. *)
Record WriteResponse := mkWrite { write_error : option PostgrestError }.

Definition succeeded : WriteResponse := {| write_error := None |}.
Definition failed (e : PostgrestError) : WriteResponse :=
  {| write_error := Some e |}.

(** [!error] on the answer to a write. *)
Definition accepted (resp : WriteResponse) : bool :=
  match write_error resp with
  | None => true
  | Some _ => false
  end.

(** An effect that reports a failure: a console error or a destructive
    toast. *)
Definition reports_failure (e : Effect) : bool :=
  match e with
  | ConsoleError _ _ => true
  | Toast _ _ destructive => destructive
  | _ => false
  end.

(** The notification rows a trace of effects asks the Data Service to
    create. *)
Fixpoint inserted_notifications (effs : list Effect) : list NotificationRow :=
  match effs with
  | [] => []
  | Call (InsertNotifications rows) :: rest =>
      (rows ++ inserted_notifications rest)%list
  | _ :: rest => inserted_notifications rest
  end.

(** ** components/dashboard/notifications-popover.tsx *)

Module NotificationsPopover.

Record Notification := mkNotification {
  id : string;
  message : string;
  read : bool;
  created_at : string;
  type : string;
  task_id : option string
}.

(** The three [useState] cells of the component. *)
Record State := mkState {
  notifications : list Notification;
  unreadCount : Z;
  isOpen : bool
}.

(** [useState([])], [useState(0)], [useState(false)]. *)
Definition initial : State :=
  {| notifications := []; unreadCount := 0; isOpen := false |}.

(** Answer to the select: [{ data, error }]. *)
Record SelectResponse := mkSelect {
  data : option (list Notification);
  error : option PostgrestError
}.

(** [n => !n.read] *)
Definition unread (n : Notification) : bool := negb (read n).

(** [{ ...n, read: true }] *)
Definition set_read (n : Notification) : Notification :=
  {| id := id n; message := message n; read := true;
     created_at := created_at n; type := type n; task_id := task_id n |}.

Definition fetch_request (u : User) : Request :=
  SelectRows "notifications" [("user_id", VStr (user_id u))]
             "created_at" false 20.

(** [fetchNotifications], the body of the mount effect. *)
Definition fetchNotifications (user : option User) (resp : SelectResponse)
    (s : State) : State * list Effect :=
  match user with
  | None => (s, [])
  | Some u =>
      match error resp with
      | Some e =>
          (s, [Call (fetch_request u);
               ConsoleError "Error fetching notifications:" e])
      | None =>
          match data resp with
          | Some d =>
              ({| notifications := d;
                  unreadCount := Z.of_nat (List.length (filter unread d));
                  isOpen := isOpen s |},
               [Call (fetch_request u)])
          | None => (s, [Call (fetch_request u)])
          end
      end
  end.

(** The callback registered on the realtime channel for INSERT events:
    [(payload) => { setNotifications(prev => [payload.new, ...prev]);
                    setUnreadCount(prev => prev + 1) }]. *)
Definition onInsert (payload_new : Notification) (s : State) : State :=
  {| notifications := payload_new :: notifications s;
     unreadCount := unreadCount s + 1;
     isOpen := isOpen s |}.

(** [n => n.id === notificationId ? { ...n, read: true } : n] *)
Definition mark (notificationId : string) (n : Notification) : Notification :=
  if String.eqb (id n) notificationId then set_read n else n.

Definition markAsRead (resp : WriteResponse) (notificationId : string)
    (s : State) : State * list Effect :=
  let req :=
    Call (UpdateRows "notifications" [("read", VBool true)]
                     [("id", VStr notificationId)]) in
  match write_error resp with
  | Some e =>
      (s, [req; ConsoleError "Error marking notification as read:" e])
  | None =>
      ({| notifications := map (mark notificationId) (notifications s);
          unreadCount := Z.max 0 (unreadCount s - 1);
          isOpen := isOpen s |},
       [req])
  end.

Definition markAllAsRead (user : option User) (resp : WriteResponse)
    (s : State) : State * list Effect :=
  match user with
  | None => (s, [])
  | Some u =>
      let req :=
        Call (UpdateRows "notifications" [("read", VBool true)]
                         [("user_id", VStr (user_id u));
                          ("read", VBool false)]) in
      match write_error resp with
      | Some e =>
          (s, [req;
               ConsoleError "Error marking all notifications as read:" e])
      | None =>
          ({| notifications := map set_read (notifications s);
              unreadCount := 0;
              isOpen := isOpen s |},
           [req])
      end
  end.

(** [handleNotificationClick]: mark as read when the clicked entry is
    unread, then navigate when it carries a task. *)
Definition handleNotificationClick (resp : WriteResponse)
    (notification : Notification) (s : State) : State * list Effect :=
  let '(s1, effs1) :=
    if negb (read notification)
    then markAsRead resp (id notification) s
    else (s, []) in
  match task_id notification with
  | Some t =>
      if truthy t
      then ({| notifications := notifications s1;
               unreadCount := unreadCount s1;
               isOpen := false |},
            (effs1 ++ [RouterPush ("/dashboard/tasks/" ++ t)%string])%list)
      else (s1, effs1)
  | None => (s1, effs1)
  end.

(** The list rendered by the "Unread" tab:
    [notifications.filter(n => !n.read)]. *)
Definition unreadTab (s : State) : list Notification :=
  filter unread (notifications s).

(** Number of records whose read flag is false, by a full scan. *)
Definition scan_unread (s : State) : Z :=
  Z.of_nat (List.length (unreadTab s)).

(** The stored aggregate agrees with the scan. *)
Definition consistent (s : State) : Prop :=
  unreadCount s = scan_unread s.

(** The invariant carried along a run: the count agrees with the scan and
    no two records share an id. *)
Definition well_formed (s : State) : Prop :=
  consistent s /\ NoDup (map id (notifications s)).

(** Local mutations of the popover. *)
Inductive LocalOp :=
| MarkRead (resp : WriteResponse) (notificationId : string)
| MarkAllRead (user : option User) (resp : WriteResponse).

Definition applyLocal (op : LocalOp) (s : State) : State :=
  match op with
  | MarkRead resp i => fst (markAsRead resp i s)
  | MarkAllRead user resp => fst (markAllAsRead user resp s)
  end.

(** Local mutations and push-delivered inserts. *)
Inductive Op :=
| Local (op : LocalOp)
| RemoteInsert (payload_new : Notification).

Definition apply (op : Op) (s : State) : State :=
  match op with
  | Local o => applyLocal o s
  | RemoteInsert n => onInsert n s
  end.

(** The states reached after each operation of a sequence. *)
Fixpoint states_after (ops : list LocalOp) (s : State) : list State :=
  match ops with
  | [] => []
  | op :: rest =>
      let s' := applyLocal op s in
      s' :: states_after rest s'
  end.

Definition run (ops : list Op) (s : State) : State :=
  fold_left (fun acc op => apply op acc) ops s.

(** How many push-delivered inserts a sequence holds. *)
Fixpoint pushed (ops : list Op) : nat :=
  match ops with
  | [] => 0
  | RemoteInsert _ :: rest => S (pushed rest)
  | Local _ :: rest => pushed rest
  end.

(** The click handler only issues [markAsRead] for an entry whose read flag
    is false. [guarded op s] says the same of a bare operation: a
    [MarkRead] that takes effect (its remote update succeeds) names a record
    that is unread in [s]. *)
Definition guarded (op : LocalOp) (s : State) : Prop :=
  match op with
  | MarkRead resp i =>
      write_error resp = None ->
      exists n, In n (notifications s) /\ id n = i /\ read n = false
  | MarkAllRead _ _ => True
  end.

Fixpoint all_guarded (ops : list LocalOp) (s : State) : Prop :=
  match ops with
  | [] => True
  | op :: rest => guarded op s /\ all_guarded rest (applyLocal op s)
  end.

End NotificationsPopover.

(** ** The task record shared by the task list, the task page and the
    dashboard *)

Module Task.

Record t := mk {
  id : string;
  title : string;
  description : option string;
  status : string;
  priority : string;
  due_date : option string;
  created_at : string;
  updated_at : option string;
  created_by : string;
  assigned_to : option string;
  creator_name : option string;
  assignee_name : option string
}.

(** [{ ...prev, status }] *)
Definition with_status (new_status : string) (p : t) : t :=
  {| id := id p; title := title p; description := description p;
     status := new_status; priority := priority p; due_date := due_date p;
     created_at := created_at p; updated_at := updated_at p;
     created_by := created_by p; assigned_to := assigned_to p;
     creator_name := creator_name p; assignee_name := assignee_name p |}.

End Task.

(** The wording both status handlers put in their success toast. *)
Definition status_words (status : string) : string :=
  if String.eqb status "completed" then "completed"
  else if String.eqb status "in_progress" then "in progress"
  else "to do".

(** [error.message || "An error occurred"] *)
Definition error_text (e : PostgrestError) : string :=
  if truthy (err_message e) then err_message e else "An error occurred".

(** The row both status handlers insert when a task is completed by someone
    other than its creator. *)
Definition completion_row (u : User) (task : Task.t) (taskId stamp : string)
  : NotificationRow :=
  {| row_user_id := Task.created_by task;
     row_message :=
       (or_else (name u) "Someone" ++ " completed the task " ++ dquote
          ++ Task.title task ++ dquote)%string;
     row_type := "task_completed";
     row_read := false;
     row_task_id := taskId;
     row_created_at := stamp |}.

Definition status_request (taskId status stamp : string) : Effect :=
  Call (UpdateRows "tasks"
          [("status", VStr status); ("updated_at", VStr stamp)]
          [("id", VStr taskId)]).

Definition delete_request (taskId : string) : Effect :=
  Call (DeleteRows "tasks" [("id", VStr taskId)]).

(** [task.created_by && task.created_by !== user.id] *)
Definition completed_by_other (u : User) (task : Task.t) : bool :=
  truthy (Task.created_by task)
  && negb (String.eqb (Task.created_by task) (user_id u)).

(** ** components/dashboard/task-list.tsx *)

Module TaskList.

(** [tasks], [limit] and [onTaskUpdate] are props, the other three fields
    are [useState] cells. No handler writes a prop. *)
Record View := mkView {
  tasks : list Task.t;
  limit : option nat;
  hasOnTaskUpdate : bool;
  deleteDialogOpen : bool;
  taskToDelete : option Task.t;
  isUpdating : bool
}.

(** [limit ? tasks.slice(0, limit) : tasks] *)
Definition displayTasks (v : View) : list Task.t :=
  match limit v with
  | Some (S n) => firstn (S n) (tasks v)
  | _ => tasks v
  end.

(** [if (onTaskUpdate) onTaskUpdate(); else router.refresh();] *)
Definition refresh (v : View) : Effect :=
  if hasOnTaskUpdate v then OnTaskUpdate else RouterRefresh.

Definition settle (v : View) : View :=
  {| tasks := tasks v; limit := limit v;
     hasOnTaskUpdate := hasOnTaskUpdate v;
     deleteDialogOpen := deleteDialogOpen v;
     taskToDelete := taskToDelete v;
     isUpdating := false |}.

Definition close_dialog (v : View) : View :=
  {| tasks := tasks v; limit := limit v;
     hasOnTaskUpdate := hasOnTaskUpdate v;
     deleteDialogOpen := false;
     taskToDelete := taskToDelete v;
     isUpdating := isUpdating v |}.

Definition forget_task (v : View) : View :=
  {| tasks := tasks v; limit := limit v;
     hasOnTaskUpdate := hasOnTaskUpdate v;
     deleteDialogOpen := deleteDialogOpen v;
     taskToDelete := None;
     isUpdating := isUpdating v |}.

(** [updateTaskStatus(taskId, status)]. The two clock readings are the two
    [new Date().toISOString()] calls. The answer to the notification insert
    is never inspected by the handler, so it is not an input. *)
Definition updateTaskStatus (user : option User)
    (stamp_update stamp_insert : string) (resp : WriteResponse)
    (taskId status : string) (v : View) : View * list Effect :=
  match user with
  | None => (v, [])
  | Some u =>
      let req := status_request taskId status stamp_update in
      match write_error resp with
      | Some e =>
          (settle v,
           [req;
            Toast "Failed to update task" (error_text e) true;
            ConsoleError "Error updating task:" e])
      | None =>
          let notify :=
            if String.eqb status "completed" then
              match
                find (fun t => String.eqb (Task.id t) taskId) (tasks v)
              with
              | Some task =>
                  if completed_by_other u task
                  then [Call (InsertNotifications
                                [completion_row u task taskId stamp_insert])]
                  else []
              | None => []
              end
            else [] in
          (settle v,
           (req :: notify
            ++ [Toast "Task updated"
                  ("Task status updated to " ++ status_words status)%string
                  false;
                refresh v])%list)
      end
  end.

Definition handleDeleteTask (user : option User) (resp : WriteResponse)
    (v : View) : View * list Effect :=
  match taskToDelete v, user with
  | Some task, Some _ =>
      let after := forget_task (close_dialog (settle v)) in
      match write_error resp with
      | Some e =>
          (after,
           [delete_request (Task.id task);
            Toast "Failed to delete task" (error_text e) true;
            ConsoleError "Error deleting task:" e])
      | None =>
          (after,
           [delete_request (Task.id task);
            Toast "Task deleted" "The task has been successfully deleted"
              false;
            refresh v])
      end
  | _, _ => (close_dialog v, [])
  end.

Definition confirmDeleteTask (task : Task.t) (v : View) : View :=
  {| tasks := tasks v; limit := limit v;
     hasOnTaskUpdate := hasOnTaskUpdate v;
     deleteDialogOpen := true;
     taskToDelete := Some task;
     isUpdating := isUpdating v |}.

End TaskList.

(** ** The task page ([TaskPage], [params.id]) *)

Module TaskPage.

Record State := mkState {
  task : option Task.t;
  isLoading : bool;
  isUpdating : bool;
  deleteDialogOpen : bool
}.

Definition settle (s : State) : State :=
  {| task := task s; isLoading := isLoading s; isUpdating := false;
     deleteDialogOpen := deleteDialogOpen s |}.

Definition close_dialog (s : State) : State :=
  {| task := task s; isLoading := isLoading s; isUpdating := isUpdating s;
     deleteDialogOpen := false |}.

(** [setTask(prev => prev ? { ...prev, status } : null)] *)
Definition set_status (status : string) (s : State) : State :=
  {| task := option_map (Task.with_status status) (task s);
     isLoading := isLoading s; isUpdating := isUpdating s;
     deleteDialogOpen := deleteDialogOpen s |}.

Definition updateTaskStatus (user : option User)
    (stamp_update stamp_insert : string) (resp : WriteResponse)
    (status : string) (s : State) : State * list Effect :=
  match user, task s with
  | Some u, Some current =>
      let req := status_request (Task.id current) status stamp_update in
      match write_error resp with
      | Some e =>
          (settle s,
           [req;
            Toast "Failed to update task" (error_text e) true;
            ConsoleError "Error updating task:" e])
      | None =>
          let notify :=
            if String.eqb status "completed" then
              if completed_by_other u current
              then [Call (InsertNotifications
                            [completion_row u current (Task.id current)
                               stamp_insert])]
              else []
            else [] in
          (settle (set_status status s),
           (req :: notify
            ++ [Toast "Task updated"
                  ("Task status updated to " ++ status_words status)%string
                  false])%list)
      end
  | _, _ => (s, [])
  end.

Definition deleteTask (user : option User) (resp : WriteResponse)
    (s : State) : State * list Effect :=
  match user, task s with
  | Some _, Some current =>
      let after := close_dialog (settle s) in
      match write_error resp with
      | Some e =>
          (after,
           [delete_request (Task.id current);
            Toast "Failed to delete task" (error_text e) true;
            ConsoleError "Error deleting task:" e])
      | None =>
          (after,
           [delete_request (Task.id current);
            Toast "Task deleted" "The task has been successfully deleted"
              false;
            RouterPush "/dashboard/tasks"])
      end
  | _, _ => (s, [])
  end.

End TaskPage.

(** ** The dashboard page ([DashboardPage]) *)

Module DashboardPage.

Section Deadlines.

(** [parseISO(s).getTime()]: [None] stands for an Invalid Date, whose
    time value is NaN. *)
Variable parseISO : string -> option Z.

(** [Date.now()] at render time. *)
Variable now : Z.

(** date-fns [isPast(date)]: [+date < Date.now()]; a NaN time value
    compares false. *)
Definition isPast (time : option Z) : bool :=
  match time with
  | Some ms => ms <? now
  | None => false
  end.

(** [task.due_date && !isPast(parseISO(task.due_date)) &&
     task.status !== 'completed'] *)
Definition upcoming (task : Task.t) : bool :=
  match Task.due_date task with
  | Some d =>
      truthy d && negb (isPast (parseISO d))
      && negb (String.eqb (Task.status task) "completed")
  | None => false
  end.

(** The comparator handed to [sort]. A NaN result counts as [+0] in
    [Array.prototype.sort]. *)
Definition compareDue (a b : Task.t) : Z :=
  match Task.due_date a, Task.due_date b with
  | Some da, Some db =>
      if truthy da && truthy db then
        match parseISO da, parseISO db with
        | Some x, Some y => x - y
        | _, _ => 0
        end
      else 0
  | _, _ => 0
  end.

(** [Array.prototype.sort(compareFn)] is a stable sort: an element
    moves behind another only when the comparator is positive. Stable
    insertion from the right computes that order. *)
Fixpoint insert (compareFn : Task.t -> Task.t -> Z) (x : Task.t)
    (l : list Task.t) : list Task.t :=
  match l with
  | [] => [x]
  | y :: rest =>
      if compareFn x y <=? 0 then x :: y :: rest
      else y :: insert compareFn x rest
  end.

Definition sort (compareFn : Task.t -> Task.t -> Z) (l : list Task.t)
  : list Task.t :=
  fold_right (insert compareFn) [] l.

(** [tasks.filter(...).sort(...).slice(0, 5)] *)
Definition upcomingTasks (tasks : list Task.t) : list Task.t :=
  firstn 5 (sort compareDue (filter upcoming tasks)).

(** The time value of a task's due date, when it has a valid one. *)
Definition dueTime (task : Task.t) : option Z :=
  match Task.due_date task with
  | Some d => if truthy d then parseISO d else None
  | None => None
  end.

(** The task carries a valid due time. *)
Definition timed (task : Task.t) : Prop :=
  exists ms, dueTime task = Some ms.

(** [a] is due no later than [b]. *)
Definition due_le (a b : Task.t) : Prop :=
  match dueTime a, dueTime b with
  | Some x, Some y => x <= y
  | _, _ => False
  end.

(** Every due date carried by the list denotes a point in time. *)
Definition valid_due_dates (tasks : list Task.t) : Prop :=
  forall task d,
    In task tasks -> Task.due_date task = Some d -> truthy d = true ->
    parseISO d <> None.

End Deadlines.

End DashboardPage.

(** ** Concrete data used in examples *)

Module Samples.

Import NotificationsPopover.

Definition alice : User :=
  {| user_id := "u-alice"; email := "alice@example.org";
     name := Some "Alice"; role := Some "user" |}.

Definition bob : User :=
  {| user_id := "u-bob"; email := "bob@example.org";
     name := Some "Bob"; role := Some "user" |}.

Definition timeout : PostgrestError := {| err_message := "timeout" |}.

Definition note (i : string) (r : bool) : Notification :=
  {| id := i; message := "You have a task"; read := r;
     created_at := "2024-05-01T10:00:00Z"; type := "task_assigned";
     task_id := None |}.

(** [[{id:1,read:false},{id:2,read:true}]] *)
Definition one_unread_one_read : list Notification :=
  [note "1" false; note "2" true].

Definition two_unread : list Notification :=
  [note "1" false; note "2" false].

Definition fetched (d : list Notification) : SelectResponse :=
  {| data := Some d; error := None |}.

Definition loaded (d : list Notification) : State :=
  fst (fetchNotifications (Some alice) (fetched d) initial).

Definition chore (i creator : string) (due : option string)
    (st : string) : Task.t :=
  {| Task.id := i; Task.title := "Water the plants";
     Task.description := None; Task.status := st;
     Task.priority := "medium"; Task.due_date := due;
     Task.created_at := "2024-05-01T10:00:00Z"; Task.updated_at := None;
     Task.created_by := creator; Task.assigned_to := Some "u-bob";
     Task.creator_name := Some "Alice"; Task.assignee_name := Some "Bob" |}.

Definition listing (l : list Task.t) (pending : option Task.t)
  : TaskList.View :=
  {| TaskList.tasks := l; TaskList.limit := None;
     TaskList.hasOnTaskUpdate := true;
     TaskList.deleteDialogOpen := true;
     TaskList.taskToDelete := pending;
     TaskList.isUpdating := false |}.

Definition page (current : Task.t) : TaskPage.State :=
  {| TaskPage.task := Some current; TaskPage.isLoading := false;
     TaskPage.isUpdating := false; TaskPage.deleteDialogOpen := true |}.

(** A toy clock for examples: the due date is its length in days. *)
Definition days (s : string) : option Z :=
  if String.eqb s "never" then None
  else Some (Z.of_nat (String.length s)).

(** Five tasks seen at day 2: one due at day 5, one already past, one
    completed, one without a due date, one due at day 3. *)
Definition board : list Task.t :=
  [chore "a" "u-alice" (Some "xxxxx") "todo";
   chore "b" "u-alice" (Some "x") "todo";
   chore "c" "u-alice" (Some "xxxx") "completed";
   chore "d" "u-alice" None "in_progress";
   chore "e" "u-alice" (Some "xxx") "in_progress"].

End Samples.

From Stdlib Require Import Permutation.

(** ** Further parts of the components *)

(** The requests a trace sends to the Data Service, in order. *)
Fixpoint requests (effs : list Effect) : list Request :=
  match effs with
  | [] => []
  | Call r :: rest => r :: requests rest
  | _ :: rest => requests rest
  end.

(** Truthiness of [string | null | undefined]. *)
Definition present (o : option string) : bool :=
  match o with
  | Some s => truthy s
  | None => false
  end.

(** [s.includes(sub)]: [sub] starts at some position of [s]. *)
Fixpoint includes (s sub : string) : bool :=
  String.prefix sub s
  || match s with
     | EmptyString => false
     | String _ rest => includes rest sub
     end.

(** *** task-list.tsx: what is rendered below the list *)

Module TaskListRender.

(** [{limit && tasks.length > limit && (<View all tasks/>)}]: an undefined
    limit and a false comparison render nothing, the number 0 renders
    itself. *)
Inductive Footer :=
| NoFooter
| StrayZero
| ViewAllLink.

Definition footer (v : TaskList.View) : Footer :=
  match TaskList.limit v with
  | None => NoFooter
  | Some O => StrayZero
  | Some (S n) =>
      if (S n <? List.length (TaskList.tasks v))%nat then ViewAllLink
      else NoFooter
  end.

(** [displayTasks.length === 0]: the empty-state card replaces the list. *)
Definition showsEmptyMessage (v : TaskList.View) : bool :=
  match TaskList.displayTasks v with
  | [] => true
  | _ => false
  end.

End TaskListRender.

(** *** The task page under a series of status changes *)

Module TaskPageRuns.

(** One call of [updateTaskStatus]: the status asked for, the answer of the
    Data Service and the two clock readings. *)
Record Step := mkStep {
  asked : string;
  answer : WriteResponse;
  stamp_update : string;
  stamp_insert : string
}.

Definition step (user : option User) (st : Step) (s : TaskPage.State)
  : TaskPage.State :=
  fst (TaskPage.updateTaskStatus user (stamp_update st) (stamp_insert st)
         (answer st) (asked st) s).

Definition run (user : option User) (steps : list Step)
    (s : TaskPage.State) : TaskPage.State :=
  fold_left (fun acc st => step user st acc) steps s.

(** The status of the last accepted update, or [start] when none was. *)
Definition last_accepted (steps : list Step) (start : string) : string :=
  fold_left (fun acc st => if accepted (answer st) then asked st else acc)
    steps start.

End TaskPageRuns.

(** *** The dashboard page: counters and task views *)

Module DashboardStats.

Record TaskCounts := mkCounts {
  assigned : nat;
  completed : nat;
  overdue : nat;
  created : nat;
  upcoming : nat;
  total : nat
}.

Section Stats.

Variable parseISO : string -> option Z.
Variable now : Z.

(** [t.status !== 'completed'] *)
Definition open (task : Task.t) : bool :=
  negb (String.eqb (Task.status task) "completed").

(** [t.assigned_to === user.id && t.status !== 'completed'] *)
Definition isAssigned (uid : option string) (task : Task.t) : bool :=
  match Task.assigned_to task, uid with
  | Some a, Some i => String.eqb a i && open task
  | _, _ => false
  end.

(** [t.due_date && isPast(parseISO(t.due_date)) &&
     t.status !== 'completed'] *)
Definition isOverdue (task : Task.t) : bool :=
  match Task.due_date task with
  | Some d =>
      truthy d && DashboardPage.isPast now (parseISO d) && open task
  | None => false
  end.

(** The counters as they come out when every call of [isPast] reads the same
    instant [now]; [taskCountsClocked] below takes one reading per call. *)
Definition taskCounts (u : User) (formattedTasks : list Task.t)
  : TaskCounts :=
  {| assigned :=
       List.length (filter (isAssigned (Some (user_id u))) formattedTasks);
     completed :=
       List.length
         (filter (fun t => String.eqb (Task.status t) "completed")
            formattedTasks);
     overdue := List.length (filter isOverdue formattedTasks);
     created :=
       List.length
         (filter (fun t => String.eqb (Task.created_by t) (user_id u))
            formattedTasks);
     upcoming :=
       List.length
         (filter (DashboardPage.upcoming parseISO now) formattedTasks);
     total := List.length formattedTasks |}.

(** The tasks the sort puts behind the five that are shown. *)
Definition notShown (tasks : list Task.t) : list Task.t :=
  skipn 5
    (DashboardPage.sort (DashboardPage.compareDue parseISO)
       (filter (DashboardPage.upcoming parseISO now) tasks)).

(** Open tasks that carry a due date. *)
Definition dated (task : Task.t) : bool :=
  present (Task.due_date task) && open task.

End Stats.

Section Clocked.

Variable parseISO : string -> option Z.

(** [isPast] reads [Date.now()] on every call; [clock k] is the reading of
    call number [k] made while the counters are computed. *)
Variable clock : nat -> Z.

(** A due-date test calls [isPast] once when the task carries a due date
    and not at all otherwise ([t.due_date && ...] stops at a missing one). *)
Definition reads (task : Task.t) : nat :=
  if present (Task.due_date task) then 1%nat else 0%nat.

Definition readings (tasks : list Task.t) : nat :=
  fold_right (fun task n => (reads task + n)%nat) 0%nat tasks.

(** [tasks.filter(test)] for a test that reads the clock: the task at the
    head is tested at reading [k], the rest from the next unused reading. *)
Fixpoint filterAt (test : Z -> Task.t -> bool) (k : nat)
    (tasks : list Task.t) : list Task.t :=
  match tasks with
  | [] => []
  | task :: rest =>
      let kept := filterAt test (k + reads task) rest in
      if test (clock k) task then task :: kept else kept
  end.

(** The object handed to [setTaskCounts]. The overdue filter runs first and
    takes the readings from 0 on, the upcoming filter takes the readings
    that follow; the other filters do not read the clock. *)
Definition taskCountsClocked (u : User) (formattedTasks : list Task.t)
  : TaskCounts :=
  {| assigned :=
       List.length (filter (isAssigned (Some (user_id u))) formattedTasks);
     completed :=
       List.length
         (filter (fun t => String.eqb (Task.status t) "completed")
            formattedTasks);
     overdue :=
       List.length (filterAt (isOverdue parseISO) 0 formattedTasks);
     created :=
       List.length
         (filter (fun t => String.eqb (Task.created_by t) (user_id u))
            formattedTasks);
     upcoming :=
       List.length
         (filterAt (DashboardPage.upcoming parseISO)
            (readings formattedTasks) formattedTasks);
     total := List.length formattedTasks |}.

End Clocked.

End DashboardStats.

(** *** The "My Tasks" page ([TasksPage]) *)

Module TasksPage.

Section Filters.

(** [String.prototype.toLowerCase]. *)
Variable toLowerCase : string -> string.

(** The search predicate of [applyFilters]. *)
Definition matchesQuery (query : string) (task : Task.t) : bool :=
  includes (toLowerCase (Task.title task)) (toLowerCase query)
  || match Task.description task with
     | Some d =>
         truthy d && includes (toLowerCase d) (toLowerCase query)
     | None => false
     end.

(** [status && status !== 'all'], the same for the priority. *)
Definition selective (choice : string) : bool :=
  truthy choice && negb (String.eqb choice "all").

(** [applyFilters]: the list handed to [setFilteredTasks]. *)
Definition applyFilters (taskList : list Task.t)
    (query status priority : string) : list Task.t :=
  let result := taskList in
  let result :=
    if truthy query then filter (matchesQuery query) result else result in
  let result :=
    if selective status
    then filter (fun task => String.eqb (Task.status task) status) result
    else result in
  let result :=
    if selective priority
    then filter (fun task => String.eqb (Task.priority task) priority)
           result
    else result in
  result.

(** What the three conditional filters of [applyFilters] ask of one task. *)
Definition passes (query status priority : string) (task : Task.t) : bool :=
  (negb (truthy query) || matchesQuery query task)
  && (negb (selective status) || String.eqb (Task.status task) status)
  && (negb (selective priority)
      || String.eqb (Task.priority task) priority).

End Filters.

(** The three status tabs: [filteredTasks.filter(task => task.status ===
    ...)]. *)
Definition tab (status : string) (filteredTasks : list Task.t)
  : list Task.t :=
  filter (fun task => String.eqb (Task.status task) status) filteredTasks.

Definition todoTasks := tab "todo".
Definition inProgressTasks := tab "in_progress".
Definition completedTasks := tab "completed".

End TasksPage.

(** *** components/dashboard/sidebar.tsx *)

Module Sidebar.

Record NavLink := mkLink {
  title : string;
  href : string;
  adminOnly : bool
}.

(** [user?.role === 'admin'] *)
Definition isAdmin (user : option User) : bool :=
  match user with
  | Some u =>
      match role u with
      | Some r => String.eqb r "admin"
      | None => false
      end
  | None => false
  end.

(** The [links] table built on every render; two entries take the viewer's
    own flag as their [adminOnly]. *)
Definition links (admin : bool) : list NavLink :=
  [ {| title := "Dashboard"; href := "/dashboard"; adminOnly := false |};
    {| title := "My Tasks"; href := "/dashboard/tasks"; adminOnly := false |};
    {| title := "Created by Me"; href := "/dashboard/tasks/created";
       adminOnly := false |};
    {| title := "Overdue"; href := "/dashboard/tasks/overdue";
       adminOnly := false |};
    {| title := "Upcoming"; href := "/dashboard/tasks/upcoming";
       adminOnly := false |};
    {| title := "Team"; href := "/dashboard/team"; adminOnly := admin |};
    {| title := "Analytics"; href := "/dashboard/analytics";
       adminOnly := admin |};
    {| title := "Profile"; href := "/dashboard/profile";
       adminOnly := false |} ].

(** [!link.adminOnly || (link.adminOnly && isAdmin)] *)
Definition shown (admin : bool) (link : NavLink) : bool :=
  negb (adminOnly link) || (adminOnly link && admin).

(** The entries of the navigation a user gets. *)
Definition nav (user : option User) : list NavLink :=
  filter (shown (isAdmin user)) (links (isAdmin user)).

End Sidebar.

(** *** context/auth-context.tsx: the session provider *)

Module AuthProvider.

(** The part of the platform's user object the provider reads. *)
Record AuthUser := mkAuthUser {
  auth_id : string;
  auth_email : option string
}.

Record Session := mkSession { session_user : option AuthUser }.

(** A row of [profiles], as far as it is read. *)
Record Profile := mkProfile {
  profile_name : option string;
  profile_role : option string
}.

Record ProfileRow := mkProfileRow {
  pr_id : string;
  pr_email : string;
  pr_name : string;
  pr_role : string;
  pr_created_at : string
}.

Inductive AuthCall :=
| GetSession
| SelectProfile (id : option string)
| SignInWithPassword (email password : string)
| SignUp (email password : string)
| InsertProfile (row : ProfileRow)
| SignOut.

(** What a provider function does, in order: calls to the platform and the
    effects shared with the other components. *)
Inductive Event :=
| Auth (c : AuthCall)
| Ui (e : Effect).

Record State := mkState {
  user : option User;
  loading : bool;
  isAuthenticated : bool
}.

(** [useState(null)], [useState(true)], [useState(false)]. *)
Definition initial : State :=
  {| user := None; loading := true; isAuthenticated := false |}.

(** [setLoading(false)] *)
Definition loaded (s : State) : State :=
  {| user := user s; loading := false; isAuthenticated := isAuthenticated s |}.

(** The object handed to [setUser] when a session exists. *)
Definition profiled (session : Session) (profileData : option Profile)
  : User :=
  {| user_id := or_else (option_map auth_id (session_user session)) "";
     email :=
       or_else
         (match session_user session with
          | Some a => auth_email a
          | None => None
          end) "";
     name :=
       Some (or_else
               (match profileData with
                | Some pd => profile_name pd
                | None => None
                end) "");
     role :=
       Some (or_else
               (match profileData with
                | Some pd => profile_role pd
                | None => None
                end) "user") |}.

Definition profile_query (session : Session) : Event :=
  Auth (SelectProfile (option_map auth_id (session_user session))).

(** How the session check of the mount effect can go. *)
Inductive SessionCheck :=
| SessionThrew (e : PostgrestError)
| ProfileThrew (session : Session) (e : PostgrestError)
| Checked (session : option Session) (profileData : option Profile).

Definition checkSession (outcome : SessionCheck) (s : State)
  : State * list Event :=
  match outcome with
  | SessionThrew e =>
      (loaded s, [Auth GetSession; Ui (ConsoleError "Error checking session:" e)])
  | ProfileThrew session e =>
      (loaded s,
       [Auth GetSession; profile_query session;
        Ui (ConsoleError "Error checking session:" e)])
  | Checked None _ => (loaded s, [Auth GetSession])
  | Checked (Some session) profileData =>
      ({| user := Some (profiled session profileData);
          loading := false;
          isAuthenticated := true |},
       [Auth GetSession; profile_query session])
  end.

(** The listener registered with [onAuthStateChange]. *)
Definition onAuthStateChange (session : option Session)
    (profileData : option Profile) (s : State) : State * list Event :=
  match session with
  | Some current =>
      ({| user := Some (profiled current profileData);
          loading := false;
          isAuthenticated := true |},
       [profile_query current])
  | None =>
      ({| user := None; loading := false; isAuthenticated := false |}, [])
  end.

(** [error.message || fallback] *)
Definition message_or (e : PostgrestError) (fallback : string) : string :=
  if truthy (err_message e) then err_message e else fallback.

Definition signIn (resp : WriteResponse) (email password : string)
    (s : State) : State * list Event :=
  match write_error resp with
  | Some e =>
      (loaded s,
       [Auth (SignInWithPassword email password);
        Ui (Toast "Sign in failed"
              (message_or e "An error occurred during sign in") true);
        Ui (ConsoleError "Error signing in:" e)])
  | None =>
      (loaded s,
       [Auth (SignInWithPassword email password);
        Ui (Toast "Successfully signed in" "Welcome back!" false);
        Ui (RouterPush "/dashboard")])
  end.

(** Answer of the platform's sign-up: [{ data: { user }, error }]. *)
Record SignUpAnswer := mkSignUp {
  new_user : option AuthUser;
  signup_error : option PostgrestError
}.

Definition registration_failed (e : PostgrestError) : list Event :=
  [Ui (Toast "Registration failed"
         (message_or e "An error occurred during registration") true);
   Ui (ConsoleError "Error signing up:" e)].

Definition registered : list Event :=
  [Ui (Toast "Account created"
         "You have successfully registered. Please check your email for verification."
         false);
   Ui (RouterPush "/login")].

Definition signUp (answer : SignUpAnswer) (profileAnswer : WriteResponse)
    (stamp : string) (email password name : string) (s : State)
  : State * list Event :=
  match signup_error answer with
  | Some e =>
      (loaded s, Auth (SignUp email password) :: registration_failed e)
  | None =>
      match new_user answer with
      | Some created =>
          let row :=
            {| pr_id := auth_id created; pr_email := email; pr_name := name;
               pr_role := "user"; pr_created_at := stamp |} in
          match write_error profileAnswer with
          | Some e =>
              (loaded s,
               Auth (SignUp email password) :: Auth (InsertProfile row)
               :: registration_failed e)
          | None =>
              (loaded s,
               Auth (SignUp email password) :: Auth (InsertProfile row)
               :: registered)
          end
      | None => (loaded s, Auth (SignUp email password) :: registered)
      end
  end.

(** [signOut]; the answer of the platform is not inspected, only an
    exception reaches the [catch]. *)
Definition signOut (threw : option PostgrestError) (s : State)
  : State * list Event :=
  match threw with
  | Some e =>
      (loaded s,
       [Auth SignOut;
        Ui (Toast "Sign out failed"
              (message_or e "An error occurred during sign out") true);
        Ui (ConsoleError "Error signing out:" e)])
  | None =>
      (loaded s,
       [Auth SignOut;
        Ui (RouterPush "/");
        Ui (Toast "Signed out" "You have been successfully signed out"
              false)])
  end.

(** [isAuthenticated] says whether a user is held. *)
Definition in_step (s : State) : Prop :=
  isAuthenticated s = match user s with Some _ => true | None => false end.

(** Everything that writes the provider's state. *)
Inductive Change :=
| SessionChecked (outcome : SessionCheck)
| AuthStateChanged (session : option Session) (profileData : option Profile)
| SignedIn (resp : WriteResponse) (email password : string)
| SignedUp (answer : SignUpAnswer) (profileAnswer : WriteResponse)
           (stamp email password name : string)
| SignedOut (threw : option PostgrestError).

Definition change (c : Change) (s : State) : State * list Event :=
  match c with
  | SessionChecked outcome => checkSession outcome s
  | AuthStateChanged session profileData =>
      onAuthStateChange session profileData s
  | SignedIn resp email password => signIn resp email password s
  | SignedUp answer profileAnswer stamp email password name =>
      signUp answer profileAnswer stamp email password name s
  | SignedOut threw => signOut threw s
  end.

Definition after (changes : list Change) : State :=
  fold_left (fun s c => fst (change c s)) changes initial.

(** The profile rows a trace asks the platform to create. *)
Fixpoint inserted_profiles (events : list Event) : list ProfileRow :=
  match events with
  | [] => []
  | Auth (InsertProfile row) :: rest => row :: inserted_profiles rest
  | _ :: rest => inserted_profiles rest
  end.

(** The routes a trace navigates to. *)
Fixpoint navigations (events : list Event) : list string :=
  match events with
  | [] => []
  | Ui (RouterPush path) :: rest => path :: navigations rest
  | _ :: rest => navigations rest
  end.

End AuthProvider.

(** *** The dashboard layout ([DashboardLayout]) *)

Module DashboardLayout.

Inductive Screen :=
| Spinner
| Blank
| Content.

(** What the layout returns for the provider's state. *)
Definition render (a : AuthProvider.State) : Screen :=
  if AuthProvider.loading a then Spinner
  else if negb (AuthProvider.isAuthenticated a) then Blank
  else Content.

(** The effect: [if (!loading && !isAuthenticated) router.push('/login')]. *)
Definition redirect (a : AuthProvider.State) : list Effect :=
  if negb (AuthProvider.loading a) && negb (AuthProvider.isAuthenticated a)
  then [RouterPush "/login"]
  else [].

End DashboardLayout.

(** *** The new-task page ([NewTaskPage]) *)

Module NewTaskPage.

Section Submit.

(** The form's date value and [Date.prototype.toISOString]. *)
Variable Date : Type.
Variable toISOString : Date -> string.

(** The exception raised by reading [data.id] when the answer carries
    neither data nor an error. *)
Variable null_data : PostgrestError.

Record TaskFormValues := mkValues {
  title : string;
  description : option string;
  status : string;
  priority : string;
  due_date : option Date;
  assigned_to : option string
}.

Record TaskData := mkTaskData {
  td_title : string;
  td_description : string;
  td_status : string;
  td_priority : string;
  td_due_date : option string;
  td_created_by : string;
  td_assigned_to : string;
  td_created_at : string
}.

(** Answer to the insert: [{ data: { id } | null, error }]. *)
Record InsertAnswer := mkAnswer {
  new_id : option string;
  insert_error : option PostgrestError
}.

Inductive SubmitEffect :=
| InsertTask (row : TaskData)
| Ui (e : Effect).

Definition taskData (u : User) (stamp : string) (values : TaskFormValues)
  : TaskData :=
  {| td_title := title values;
     td_description := or_else (description values) "";
     td_status := status values;
     td_priority := priority values;
     td_due_date := option_map toISOString (due_date values);
     td_created_by := user_id u;
     td_assigned_to := or_else (assigned_to values) (user_id u);
     td_created_at := stamp |}.

(** [values.assigned_to && values.assigned_to !== user.id] *)
Definition assigned_to_other (u : User) (values : TaskFormValues) : bool :=
  match assigned_to values with
  | Some a => truthy a && negb (String.eqb a (user_id u))
  | None => false
  end.

Definition assignment_row (u : User) (values : TaskFormValues)
    (taskId stamp : string) : NotificationRow :=
  {| row_user_id := or_else (assigned_to values) "";
     row_message :=
       (or_else (name u) "Someone" ++ " assigned you a new task: " ++ dquote
          ++ title values ++ dquote)%string;
     row_type := "task_assigned";
     row_read := false;
     row_task_id := taskId;
     row_created_at := stamp |}.

Definition creation_failed (e : PostgrestError) : list SubmitEffect :=
  [Ui (Toast "Failed to create task" (error_text e) true);
   Ui (ConsoleError "Error creating task:" e)].

Definition task_created : SubmitEffect :=
  Ui (Toast "Task created" "Your task has been created successfully" false).

(** [onSubmit]; the state is the [isLoading] cell. *)
Definition onSubmit (user : option User) (stamp_task stamp_note : string)
    (answer : InsertAnswer) (values : TaskFormValues) (isLoading : bool)
  : bool * list SubmitEffect :=
  match user with
  | None => (isLoading, [])
  | Some u =>
      let insert := InsertTask (taskData u stamp_task values) in
      match insert_error answer with
      | Some e => (false, insert :: creation_failed e)
      | None =>
          match new_id answer with
          | Some taskId =>
              let notify :=
                if assigned_to_other u values
                then [Ui (Call (InsertNotifications
                                  [assignment_row u values taskId
                                     stamp_note]))]
                else [] in
              (false,
               (insert :: notify
                ++ [task_created;
                    Ui (RouterPush ("/dashboard/tasks/" ++ taskId)%string)])
               %list)
          | None =>
              if assigned_to_other u values
              then (false, insert :: creation_failed null_data)
              else (false,
                    insert :: task_created :: creation_failed null_data)
          end
      end
  end.

(** The notification rows and the task rows a submit asks for. *)
Fixpoint notified (effs : list SubmitEffect) : list NotificationRow :=
  match effs with
  | [] => []
  | Ui (Call (InsertNotifications rows)) :: rest =>
      (rows ++ notified rest)%list
  | _ :: rest => notified rest
  end.

Fixpoint created_tasks (effs : list SubmitEffect) : list TaskData :=
  match effs with
  | [] => []
  | InsertTask row :: rest => row :: created_tasks rest
  | _ :: rest => created_tasks rest
  end.

End Submit.

End NewTaskPage.

(** The routes a trace navigates to, in order. *)
Fixpoint pushes (effs : list Effect) : list string :=
  match effs with
  | [] => []
  | RouterPush path :: rest => path :: pushes rest
  | _ :: rest => pushes rest
  end.

(** *** The popover under local mutations and pushes *)

Module PopoverRuns.

Import NotificationsPopover.

(** A push delivers a record as the application creates them: unread, with
    an id the collection does not hold yet. A local mutation is [guarded]. *)
Definition admissible (op : Op) (s : State) : Prop :=
  match op with
  | Local o => guarded o s
  | RemoteInsert n =>
      read n = false /\ ~ In (id n) (map id (notifications s))
  end.

Fixpoint all_admissible (ops : list Op) (s : State) : Prop :=
  match ops with
  | [] => True
  | op :: rest => admissible op s /\ all_admissible rest (apply op s)
  end.

End PopoverRuns.

(** ** More concrete data used in examples *)

Module Fixtures.

Import NotificationsPopover.

(** A notification that refers to task [t7]. *)
Definition about_task (i : string) (r : bool) : Notification :=
  {| id := i; message := "Bob completed the task"; read := r;
     created_at := "2024-05-02T09:00:00Z"; type := "task_completed";
     task_id := Some "t7" |}.

Definition inbox : State :=
  Samples.loaded [about_task "1" false; Samples.note "2" true;
                  Samples.note "3" false].

Definition plants : Task.t := Samples.chore "t1" "u-alice" None "todo".

Definition two_tasks : TaskList.View :=
  {| TaskList.tasks := [plants; Samples.chore "t2" "u-alice" None "todo"];
     TaskList.limit := Some 1%nat;
     TaskList.hasOnTaskUpdate := false;
     TaskList.deleteDialogOpen := false;
     TaskList.taskToDelete := None;
     TaskList.isUpdating := false |}.

(** Seven open tasks, all due after day 2. *)
Definition busy_board : list Task.t :=
  [Samples.chore "a" "u-alice" (Some "xxxxxxx") "todo";
   Samples.chore "b" "u-alice" (Some "xxx") "todo";
   Samples.chore "c" "u-alice" (Some "xxxxx") "in_progress";
   Samples.chore "d" "u-alice" (Some "xxxx") "todo";
   Samples.chore "e" "u-alice" (Some "xxxxxx") "todo";
   Samples.chore "f" "u-alice" (Some "xxx") "in_progress";
   Samples.chore "g" "u-alice" (Some "xxxxxxxx") "todo"].

(** Lower-casing of the letters A to Z, enough for the examples. *)
Definition lower_ascii (c : ascii) : ascii :=
  let n := nat_of_ascii c in
  if ((65 <=? n) && (n <=? 90))%nat then ascii_of_nat (n + 32) else c.

Fixpoint lower (s : string) : string :=
  match s with
  | EmptyString => EmptyString
  | String c rest => String (lower_ascii c) (lower rest)
  end.

Definition errand (i t st pr : string) : Task.t :=
  {| Task.id := i; Task.title := t; Task.description := Some "";
     Task.status := st; Task.priority := pr; Task.due_date := None;
     Task.created_at := "2024-05-01T10:00:00Z"; Task.updated_at := None;
     Task.created_by := "u-alice"; Task.assigned_to := Some "u-bob";
     Task.creator_name := None; Task.assignee_name := None |}.

Definition errands : list Task.t :=
  [errand "1" "Buy Milk" "todo" "low";
   errand "2" "Call the bank" "in_progress" "high";
   errand "3" "Milk the cow" "completed" "high";
   errand "4" "Archive" "archived" "low"].

(** A clock that advances by one between any two readings. *)
Definition ticking (k : nat) : Z := Z.of_nat k.

Definition press (status : string) (resp : WriteResponse)
  : TaskPageRuns.Step :=
  {| TaskPageRuns.asked := status; TaskPageRuns.answer := resp;
     TaskPageRuns.stamp_update := "10:00";
     TaskPageRuns.stamp_insert := "10:01" |}.

End Fixtures.

(** * Properties of the notifications popover *)

Section Popover.

Import NotificationsPopover.

Implicit Types (s : State) (n : Notification) (l : list Notification).

Lemma set_read_of_read n : read n = true -> set_read n = n.
Proof. destruct n as [i m r c t k]; simpl; intros ->; reflexivity. Qed.

Lemma mark_of_read i n : read n = true -> mark i n = n.
Proof.
  intros Hr; unfold mark.
  destruct (String.eqb (id n) i); auto using set_read_of_read.
Qed.

Lemma mark_id i n : id (mark i n) = id n.
Proof. unfold mark; destruct (String.eqb (id n) i); reflexivity. Qed.

Lemma mark_hit i n : id n = i -> read (mark i n) = true.
Proof.
  intros <-; unfold mark; rewrite String.eqb_refl; reflexivity.
Qed.

Lemma mark_miss i n : id n <> i -> mark i n = n.
Proof.
  intros Hne; unfold mark.
  destruct (String.eqb_spec (id n) i); [contradiction | reflexivity].
Qed.

Lemma mark_idempotent i n : mark i (mark i n) = mark i n.
Proof.
  destruct (String.eqb_spec (id n) i) as [He | Hne].
  - apply mark_of_read, mark_hit, He.
  - rewrite (mark_miss i n Hne); apply mark_miss, Hne.
Qed.

Lemma map_mark_ids i l : map id (map (mark i) l) = map id l.
Proof.
  rewrite map_map; apply map_ext; intros n; apply mark_id.
Qed.

Lemma filter_unread_set_read l : filter unread (map set_read l) = [].
Proof. induction l as [| n l IH]; simpl; auto. Qed.

(** C4: the push handler puts the delivered record at the head of the
    collection, keeps the previous collection unchanged behind it, and adds
    one to the unread count, whatever the collection already holds; a
    record delivered twice is stored twice and counted twice. *)
Theorem onInsert_prepends_unconditionally (payload_new : Notification)
    (s : State) :
  notifications (onInsert payload_new s) = payload_new :: notifications s
  /\ unreadCount (onInsert payload_new s) = unreadCount s + 1
  /\ notifications (onInsert payload_new (onInsert payload_new s))
     = payload_new :: payload_new :: notifications s
  /\ unreadCount (onInsert payload_new (onInsert payload_new s))
     = unreadCount s + 2.
Proof.
  unfold onInsert; simpl; repeat split; lia.
Qed.

(** C8: after a [markAllAsRead] whose remote update succeeded every record
    is read, the unread count is zero and the unread tab is empty. On the
    collection [[{id:1,read:false},{id:2,read:true}]] the count is 1 after
    the fetch and 0 after [markAllAsRead], with both records read. *)
Theorem markAllAsRead_leaves_nothing_unread (u : User) (s : State) :
  let s' := fst (markAllAsRead (Some u) succeeded s) in
  Forall (fun n => read n = true) (notifications s')
  /\ map id (notifications s') = map id (notifications s)
  /\ unreadCount s' = 0
  /\ unreadTab s' = []
  /\ unreadCount (Samples.loaded Samples.one_unread_one_read) = 1
  /\ (let after :=
        fst (markAllAsRead (Some Samples.alice) succeeded
               (Samples.loaded Samples.one_unread_one_read)) in
      unreadCount after = 0
      /\ map (fun n => (id n, read n)) (notifications after)
         = [("1", true); ("2", true)]).
Proof.
  simpl; repeat split.
  - apply Forall_forall; intros n Hin.
    apply in_map_iff in Hin; destruct Hin as [m [<- _]]; reflexivity.
  - rewrite map_map; reflexivity.
  - unfold unreadTab; simpl; apply filter_unread_set_read.
Qed.

(** C2, as stated, at a concrete input: after a fetch of two unread records
    a second successful [markAsRead "1"] lowers the count again (1, then 0,
    with one record still unread), so two calls do not amount to one; and
    two calls whose remote update failed leave record "1" unread. *)
Lemma markAsRead_twice_is_not_idempotent :
  let start := Samples.loaded Samples.two_unread in
  let once := fst (markAsRead succeeded "1" start) in
  let twice := fst (markAsRead succeeded "1" once) in
  let refused :=
    fst (markAsRead (failed Samples.timeout) "1"
           (fst (markAsRead (failed Samples.timeout) "1" start))) in
  unreadCount once = 1
  /\ unreadCount twice = 0
  /\ scan_unread twice = 1
  /\ notifications twice = notifications once
  /\ map (fun n => (id n, read n)) (notifications refused)
     = [("1", false); ("2", false)].
Proof. repeat split. Qed.

(** C2, amended: two [markAsRead] calls for the same id, whatever the two
    remote answers. The collection ends as one effective call leaves it:
    every record carrying the id is read as soon as one of the two updates
    succeeded, and nothing changes when both failed. The unread count is
    lowered once for each call whose update succeeded, twice when both did,
    clamped at zero; it is never taken below zero. *)
Theorem markAsRead_twice_by_answers (first second : WriteResponse)
    (i : string) (s : State) :
  let once := fst (markAsRead first i s) in
  let twice := fst (markAsRead second i once) in
  notifications twice
  = (if accepted first || accepted second
     then map (mark i) (notifications s)
     else notifications s)
  /\ unreadCount twice
     = match accepted first, accepted second with
       | true, true => Z.max 0 (unreadCount s - 2)
       | false, false => unreadCount s
       | _, _ => Z.max 0 (unreadCount s - 1)
       end
  /\ (accepted first || accepted second = true ->
      forall n, In n (notifications twice) -> id n = i -> read n = true)
  /\ map id (notifications twice) = map id (notifications s)
  /\ (0 <= unreadCount s -> 0 <= unreadCount twice).
Proof.
  assert (Hmarked : forall n,
            In n (map (mark i) (notifications s)) -> id n = i ->
            read n = true).
  { intros n Hin Hid.
    apply in_map_iff in Hin; destruct Hin as [m [<- _]].
    rewrite mark_id in Hid; apply mark_hit, Hid. }
  assert (Htwice : map (mark i) (map (mark i) (notifications s))
                   = map (mark i) (notifications s)).
  { rewrite map_map; apply map_ext; intros n; apply mark_idempotent. }
  unfold markAsRead, accepted.
  destruct (write_error first), (write_error second); simpl;
    rewrite ?Htwice, ?map_mark_ids;
    repeat split; try lia; try discriminate; intros _; exact Hmarked.
Qed.

(** C3, as stated, at a concrete input: a [markAsRead] whose remote update
    failed leaves the unread record unread. *)
Lemma markAsRead_failure_leaves_flag_false :
  let before := Samples.loaded [Samples.note "1" false] in
  let after := fst (markAsRead (failed Samples.timeout) "1" before) in
  map read (notifications before) = [false]
  /\ map read (notifications after) = [false]
  /\ unreadCount after = 1.
Proof. repeat split. Qed.

(** C3, amended: both read handlers send the remote update first and touch
    the local state only when it succeeded. On failure the state is the
    state before (there is nothing to roll back) and the error goes to the
    console; on success the flags are set and the count adjusted. *)
Theorem read_handlers_update_after_remote_success (u : User)
    (e : PostgrestError) (i : string) (s : State) :
  markAsRead (failed e) i s
  = (s, [Call (UpdateRows "notifications" [("read", VBool true)]
                 [("id", VStr i)]);
         ConsoleError "Error marking notification as read:" e])
  /\ markAllAsRead (Some u) (failed e) s
     = (s, [Call (UpdateRows "notifications" [("read", VBool true)]
                    [("user_id", VStr (user_id u)); ("read", VBool false)]);
            ConsoleError "Error marking all notifications as read:" e])
  /\ markAsRead succeeded i s
     = ({| notifications := map (mark i) (notifications s);
           unreadCount := Z.max 0 (unreadCount s - 1);
           isOpen := isOpen s |},
        [Call (UpdateRows "notifications" [("read", VBool true)]
                 [("id", VStr i)])])
  /\ markAllAsRead (Some u) succeeded s
     = ({| notifications := map set_read (notifications s);
           unreadCount := 0;
           isOpen := isOpen s |},
        [Call (UpdateRows "notifications" [("read", VBool true)]
                 [("user_id", VStr (user_id u)); ("read", VBool false)])])
  /\ (forall n, In n (notifications s) -> id n = i ->
      In (set_read n) (notifications (fst (markAsRead succeeded i s)))).
Proof.
  repeat split.
  intros n Hin Hid; simpl.
  apply in_map_iff; exists n; split; [| exact Hin].
  unfold mark; rewrite Hid, String.eqb_refl; reflexivity.
Qed.

(** C5, as stated, at a concrete input: without a user the fetch does
    nothing at all; no request, no state change, no failure reported. *)
Lemma fetchNotifications_without_user_is_silent :
  let result :=
    fetchNotifications None (Samples.fetched Samples.two_unread) initial in
  result = (initial, [])
  /\ existsb reports_failure (snd result) = false.
Proof. split; reflexivity. Qed.

(** C5, amended: without a user the fetch returns silently. With a user it
    asks for the user's notifications, newest first, at most 20. When the
    answer carries data the collection is replaced by it and the count
    recomputed; when it carries an error the state is untouched and the
    error is written to the console, the handler itself completing
    normally. *)
Theorem fetchNotifications_outcomes (u : User) (e : PostgrestError)
    (d : list Notification) (partial : option (list Notification))
    (resp : SelectResponse) (s : State) :
  fetchNotifications None resp s = (s, [])
  /\ hd_error (snd (fetchNotifications (Some u) resp s))
     = Some (Call (SelectRows "notifications"
                     [("user_id", VStr (user_id u))] "created_at" false 20))
  /\ fetchNotifications (Some u) {| data := Some d; error := None |} s
     = ({| notifications := d;
           unreadCount := Z.of_nat (List.length (filter unread d));
           isOpen := isOpen s |},
        [Call (fetch_request u)])
  /\ fetchNotifications (Some u) {| data := partial; error := Some e |} s
     = (s, [Call (fetch_request u);
            ConsoleError "Error fetching notifications:" e]).
Proof.
  repeat split.
  unfold fetchNotifications.
  destruct (error resp); [reflexivity |].
  destruct (data resp); reflexivity.
Qed.

Lemma applyLocal_keeps_read (op : LocalOp) s (k : nat) n :
  nth_error (notifications s) k = Some n -> read n = true ->
  nth_error (notifications (applyLocal op s)) k = Some n.
Proof.
  intros Hk Hr.
  destruct op as [resp i | user resp]; simpl.
  - unfold markAsRead; destruct (write_error resp); simpl; [exact Hk |].
    rewrite nth_error_map, Hk; simpl; f_equal; apply mark_of_read, Hr.
  - unfold markAllAsRead; destruct user; [| exact Hk].
    destruct (write_error resp); simpl; [exact Hk |].
    rewrite nth_error_map, Hk; simpl; f_equal; apply set_read_of_read, Hr.
Qed.

(** C9: a record that is read stays in the collection, unchanged and read,
    through any sequence of [markAsRead], [markAllAsRead] and push-delivered
    inserts, whatever the remote answers; it only moves back by one place
    per insert. *)
Theorem read_flag_never_reverts (ops : list Op) (s : State) (k : nat)
    (n : Notification)
    (Hk : nth_error (notifications s) k = Some n)
    (Hread : read n = true) :
  nth_error (notifications (run ops s)) (pushed ops + k) = Some n.
Proof.
  revert s k Hk.
  induction ops as [| op ops IH]; intros s k Hk; [exact Hk |].
  unfold run; simpl; fold (run ops (apply op s)).
  destruct op as [o | m].
  - apply IH; simpl; apply applyLocal_keeps_read; assumption.
  - replace (S (pushed ops) + k)%nat with (pushed ops + S k)%nat by lia.
    apply IH; exact Hk.
Qed.

Lemma read_flag_never_reverts_witness :
  nth_error
    (notifications
       (run [Local (MarkRead succeeded "2");
             RemoteInsert (Samples.note "3" false);
             Local (MarkAllRead (Some Samples.alice) (failed Samples.timeout));
             Local (MarkRead succeeded "1")]
          (Samples.loaded Samples.one_unread_one_read)))
    2
  = Some (Samples.note "2" true).
Proof.
  apply (read_flag_never_reverts
           [Local (MarkRead succeeded "2");
            RemoteInsert (Samples.note "3" false);
            Local (MarkAllRead (Some Samples.alice) (failed Samples.timeout));
            Local (MarkRead succeeded "1")]
           (Samples.loaded Samples.one_unread_one_read) 1
           (Samples.note "2" true)); reflexivity.
Defined.

Lemma mark_absent i l : ~ In i (map id l) -> map (mark i) l = l.
Proof.
  intros Hno; rewrite <- (map_id l) at 2.
  apply map_ext_in; intros n Hin; apply mark_miss.
  intros He; apply Hno; rewrite <- He; apply in_map, Hin.
Qed.

Lemma scan_after_mark i n l :
  NoDup (map id l) -> In n l -> id n = i -> read n = false ->
  List.length (filter unread l)
  = S (List.length (filter unread (map (mark i) l))).
Proof.
  intros Hnd Hin Hid Hr.
  induction l as [| a l IH]; [contradiction |].
  simpl in Hnd; apply NoDup_cons_iff in Hnd; destruct Hnd as [Hfresh Hnd].
  destruct Hin as [-> | Hin].
  - simpl; rewrite (mark_absent i l) by (rewrite <- Hid; exact Hfresh).
    unfold mark at 1; rewrite Hid, String.eqb_refl.
    unfold unread at 1 3; rewrite Hr; reflexivity.
  - assert (Hne : id a <> i).
    { intros He; apply Hfresh; rewrite He, <- Hid; apply in_map, Hin. }
    simpl; rewrite (mark_miss i a Hne).
    destruct (unread a); simpl; rewrite (IH Hnd Hin); reflexivity.
Qed.

Lemma fetch_well_formed user resp :
  (forall d, data resp = Some d -> NoDup (map id d)) ->
  well_formed (fst (fetchNotifications user resp initial)).
Proof.
  intros Hids.
  assert (H0 : well_formed initial) by (split; [reflexivity | constructor]).
  unfold fetchNotifications.
  destruct user as [u |]; [| exact H0].
  destruct (error resp); [exact H0 |].
  destruct (data resp) as [d |] eqn:Hd; [| exact H0].
  split; [reflexivity | apply Hids; reflexivity].
Qed.

Lemma applyLocal_well_formed op s :
  guarded op s -> well_formed s -> well_formed (applyLocal op s).
Proof.
  intros Hg [Hc Hnd].
  destruct op as [resp i | user resp]; simpl in *.
  - unfold markAsRead.
    destruct (write_error resp) eqn:He; simpl; [split; assumption |].
    destruct (Hg eq_refl) as [n [Hin [Hid Hr]]].
    split; [| simpl; rewrite map_mark_ids; exact Hnd].
    unfold consistent, scan_unread, unreadTab in *; simpl.
    rewrite Hc, (scan_after_mark i n _ Hnd Hin Hid Hr); lia.
  - unfold markAllAsRead.
    destruct user; [| split; assumption].
    destruct (write_error resp); simpl; [split; assumption |].
    split.
    + unfold consistent, scan_unread, unreadTab; simpl.
      rewrite filter_unread_set_read; reflexivity.
    + simpl; rewrite map_map; exact Hnd.
Qed.

Lemma states_after_well_formed ops s :
  all_guarded ops s -> well_formed s ->
  Forall well_formed (states_after ops s).
Proof.
  revert s; induction ops as [| op ops IH]; intros s Hg Hwf; simpl.
  - constructor.
  - destruct Hg as [Hop Hrest].
    pose proof (applyLocal_well_formed op s Hop Hwf) as Hnext.
    constructor; [exact Hnext | apply IH; assumption].
Qed.

(** The click handler keeps the count in step with the scan: it calls
    [markAsRead] only for an entry that is rendered and unread. *)
Lemma handleNotificationClick_consistent resp n s :
  well_formed s -> In n (notifications s) ->
  well_formed (fst (handleNotificationClick resp n s)).
Proof.
  intros Hwf Hin.
  assert (Hstep : well_formed
            (fst (if negb (read n) then markAsRead resp (id n) s
                  else (s, [])))).
  { destruct (read n) eqn:Hr; simpl; [exact Hwf |].
    apply (applyLocal_well_formed (MarkRead resp (id n)) s); [| exact Hwf].
    intros _; exists n; auto. }
  unfold handleNotificationClick.
  destruct (if negb (read n) then markAsRead resp (id n) s else (s, []))
    as [s1 effs1]; simpl in Hstep.
  destruct (task_id n) as [t |]; [| exact Hstep].
  destruct (truthy t); exact Hstep.
Qed.

(** C1, as stated, at a concrete input: after a fetch of two unread records,
    two successful [markAsRead] calls for the same id bring the stored count
    to 0 while one record is still unread. *)
Lemma repeated_markAsRead_count_drifts :
  let start := Samples.loaded Samples.two_unread in
  let trace :=
    states_after [MarkRead succeeded "1"; MarkRead succeeded "1"] start in
  map unreadCount (start :: trace) = [2; 1; 0]
  /\ map scan_unread (start :: trace) = [2; 1; 1].
Proof. split; reflexivity. Qed.

(** C1, amended: start from the empty popover, fetch (any user, any answer
    whose records carry pairwise distinct ids), then run local mutations in
    which every [markAsRead] that takes effect names a record that is unread
    at that moment. After the fetch and after every operation the stored
    unread count equals the number of records whose read flag is false. *)
Theorem unread_count_matches_scan (user : option User)
    (resp : SelectResponse) (ops : list LocalOp)
    (Hids : forall d, data resp = Some d -> NoDup (map id d))
    (Hops : all_guarded ops (fst (fetchNotifications user resp initial))) :
  consistent (fst (fetchNotifications user resp initial))
  /\ Forall consistent
       (states_after ops (fst (fetchNotifications user resp initial))).
Proof.
  pose proof (fetch_well_formed user resp Hids) as Hwf.
  split; [apply Hwf |].
  eapply Forall_impl;
    [| apply (states_after_well_formed ops _ Hops Hwf)].
  intros s [Hc _]; exact Hc.
Qed.

End Popover.

Section PopoverExamples.

Import NotificationsPopover.

Lemma unread_count_matches_scan_witness :
  let ops :=
    [MarkRead succeeded "1";
     MarkRead (failed Samples.timeout) "1";
     MarkRead succeeded "2";
     MarkAllRead (Some Samples.alice) succeeded] in
  let start := Samples.loaded Samples.two_unread in
  consistent start /\ Forall consistent (states_after ops start).
Proof.
  apply (unread_count_matches_scan (Some Samples.alice)
           (Samples.fetched Samples.two_unread)).
  - intros d Hd; injection Hd as <-.
    repeat constructor; simpl; intuition discriminate.
  - simpl; repeat split.
    + intros _; exists (Samples.note "1" false); simpl; auto.
    + intros Hno; discriminate Hno.
    + intros _; exists (Samples.note "2" false); simpl; auto.
Defined.

End PopoverExamples.

(** * Properties of the task handlers *)

Section StatusAndDelete.

Implicit Types (u : User) (task : Task.t) (v : TaskList.View)
  (p : TaskPage.State).

Lemma find_by_id taskId l task :
  find (fun t => String.eqb (Task.id t) taskId) l = Some task ->
  In task l /\ Task.id task = taskId.
Proof.
  intros Hf; apply find_some in Hf; destruct Hf as [Hin He].
  split; [exact Hin | apply String.eqb_eq, He].
Qed.

Lemma completed_by_other_spec u task :
  Task.created_by task <> "" ->
  completed_by_other u task
  = negb (String.eqb (Task.created_by task) (user_id u)).
Proof.
  intros Hne; unfold completed_by_other, truthy.
  destruct (String.eqb_spec (Task.created_by task) "");
    [contradiction | reflexivity].
Qed.

(** The notification inserts of the list handler, for every answer and
    status. *)
Lemma list_status_inserts u task taskId stamp1 stamp2 resp status v :
  find (fun t => String.eqb (Task.id t) taskId) (TaskList.tasks v)
  = Some task ->
  Task.created_by task <> "" ->
  inserted_notifications
    (snd (TaskList.updateTaskStatus (Some u) stamp1 stamp2 resp taskId
            status v))
  = if accepted resp && String.eqb status "completed"
       && negb (String.eqb (Task.created_by task) (user_id u))
    then [completion_row u task taskId stamp2]
    else [].
Proof.
  intros Hlisted Hcreator.
  unfold TaskList.updateTaskStatus, TaskList.refresh, accepted.
  rewrite Hlisted, (completed_by_other_spec u task Hcreator).
  destruct (write_error resp); [reflexivity |].
  destruct (String.eqb status "completed"); simpl.
  - destruct (String.eqb (Task.created_by task) (user_id u)),
      (TaskList.hasOnTaskUpdate v); reflexivity.
  - destruct (TaskList.hasOnTaskUpdate v); reflexivity.
Qed.

(** The notification inserts of the page handler, for every answer and
    status. *)
Lemma page_status_inserts u task stamp1 stamp2 resp status p :
  TaskPage.task p = Some task ->
  Task.created_by task <> "" ->
  inserted_notifications
    (snd (TaskPage.updateTaskStatus (Some u) stamp1 stamp2 resp status p))
  = if accepted resp && String.eqb status "completed"
       && negb (String.eqb (Task.created_by task) (user_id u))
    then [completion_row u task (Task.id task) stamp2]
    else [].
Proof.
  intros Hshown Hcreator.
  unfold TaskPage.updateTaskStatus, accepted.
  rewrite Hshown, (completed_by_other_spec u task Hcreator).
  destruct (write_error resp); [reflexivity |].
  destruct (String.eqb status "completed"); simpl; [| reflexivity].
  destruct (String.eqb (Task.created_by task) (user_id u)); reflexivity.
Qed.

(** C6, as stated, at a concrete input: Bob completes a task created by
    Alice, the Data Service rejects the status update, and neither handler
    asks for a notification. *)
Lemma rejected_completion_notifies_nobody :
  let task := Samples.chore "t1" "u-alice" None "in_progress" in
  inserted_notifications
    (snd (TaskList.updateTaskStatus (Some Samples.bob) "10:00" "10:01"
            (failed Samples.timeout) "t1" "completed"
            (Samples.listing [task] None)))
  = []
  /\ inserted_notifications
       (snd (TaskPage.updateTaskStatus (Some Samples.bob) "10:00" "10:01"
               (failed Samples.timeout) "completed" (Samples.page task)))
     = [].
Proof. split; reflexivity. Qed.

(** C6, amended: a status change to ["completed"] on a task found in the
    list (task list) or shown on the page (task page), with a creator. When
    the Data Service accepts the status update and the creator is not the
    acting user, the handler asks for exactly one notification, owned by the
    creator, referring to the task, unread and typed ["task_completed"].
    When the update is rejected, or the acting user is the creator, it asks
    for none. *)
Theorem completion_notifies_creator u task (taskId stamp1 stamp2 : string)
    (resp : WriteResponse) v p
    (Hlisted :
       find (fun t => String.eqb (Task.id t) taskId) (TaskList.tasks v)
       = Some task)
    (Hshown : TaskPage.task p = Some task)
    (Hcreator : Task.created_by task <> "") :
  let expected :=
    if accepted resp
       && negb (String.eqb (Task.created_by task) (user_id u))
    then [completion_row u task taskId stamp2]
    else [] in
  inserted_notifications
    (snd (TaskList.updateTaskStatus (Some u) stamp1 stamp2 resp
            taskId "completed" v)) = expected
  /\ inserted_notifications
       (snd (TaskPage.updateTaskStatus (Some u) stamp1 stamp2 resp
               "completed" p)) = expected
  /\ row_user_id (completion_row u task taskId stamp2)
     = Task.created_by task
  /\ row_task_id (completion_row u task taskId stamp2) = Task.id task
  /\ row_read (completion_row u task taskId stamp2) = false
  /\ row_type (completion_row u task taskId stamp2) = "task_completed"
  /\ (forall answer status (Hself : Task.created_by task = user_id u),
        inserted_notifications
          (snd (TaskList.updateTaskStatus (Some u) stamp1 stamp2 answer
                  taskId status v)) = []
        /\ inserted_notifications
             (snd (TaskPage.updateTaskStatus (Some u) stamp1 stamp2 answer
                     status p)) = []).
Proof.
  destruct (find_by_id _ _ _ Hlisted) as [_ Hid].
  cbv zeta; repeat split.
  - rewrite (list_status_inserts u task taskId stamp1 stamp2 resp
               "completed" v Hlisted Hcreator); simpl.
    rewrite andb_true_r; reflexivity.
  - rewrite (page_status_inserts u task stamp1 stamp2 resp
               "completed" p Hshown Hcreator), Hid; simpl.
    rewrite andb_true_r; reflexivity.
  - symmetry; exact Hid.
  - rewrite (list_status_inserts u task taskId stamp1 stamp2 answer status v
               Hlisted Hcreator), Hself, String.eqb_refl, !andb_false_r.
    reflexivity.
  - rewrite (page_status_inserts u task stamp1 stamp2 answer status p
               Hshown Hcreator), Hself, String.eqb_refl, !andb_false_r.
    reflexivity.
Qed.

Lemma completion_notifies_creator_witness :
  let task := Samples.chore "t1" "u-alice" None "in_progress" in
  let v := Samples.listing [Samples.chore "t0" "u-bob" None "todo"; task]
             None in
  inserted_notifications
    (snd (TaskList.updateTaskStatus (Some Samples.bob) "10:00" "10:01"
            succeeded "t1" "completed" v))
  = [completion_row Samples.bob task "t1" "10:01"]
  /\ inserted_notifications
       (snd (TaskList.updateTaskStatus (Some Samples.alice) "10:00" "10:01"
               succeeded "t1" "completed" v))
     = []
  /\ inserted_notifications
       (snd (TaskPage.updateTaskStatus (Some Samples.bob) "10:00" "10:01"
               (failed Samples.timeout) "completed" (Samples.page task)))
     = [].
Proof.
  assert (Hcreator :
            Task.created_by (Samples.chore "t1" "u-alice" None "in_progress")
            <> "") by discriminate.
  split; [| split].
  - exact (proj1
             (completion_notifies_creator Samples.bob
                (Samples.chore "t1" "u-alice" None "in_progress")
                "t1" "10:00" "10:01" succeeded
                (Samples.listing
                   [Samples.chore "t0" "u-bob" None "todo";
                    Samples.chore "t1" "u-alice" None "in_progress"] None)
                (Samples.page
                   (Samples.chore "t1" "u-alice" None "in_progress"))
                eq_refl eq_refl Hcreator)).
  - exact (proj1
             (completion_notifies_creator Samples.alice
                (Samples.chore "t1" "u-alice" None "in_progress")
                "t1" "10:00" "10:01" succeeded
                (Samples.listing
                   [Samples.chore "t0" "u-bob" None "todo";
                    Samples.chore "t1" "u-alice" None "in_progress"] None)
                (Samples.page
                   (Samples.chore "t1" "u-alice" None "in_progress"))
                eq_refl eq_refl Hcreator)).
  - exact (proj1 (proj2
             (completion_notifies_creator Samples.bob
                (Samples.chore "t1" "u-alice" None "in_progress")
                "t1" "10:00" "10:01" (failed Samples.timeout)
                (Samples.listing
                   [Samples.chore "t0" "u-bob" None "todo";
                    Samples.chore "t1" "u-alice" None "in_progress"] None)
                (Samples.page
                   (Samples.chore "t1" "u-alice" None "in_progress"))
                eq_refl eq_refl Hcreator))).
Defined.

(** C7, as stated, at a concrete input: after a delete whose remote call
    succeeded the deleted task is still in the list the component holds, on
    the task list and on the task page alike. *)
Lemma delete_success_keeps_local_entry :
  let t1 := Samples.chore "t1" "u-alice" None "todo" in
  let t2 := Samples.chore "t2" "u-alice" None "todo" in
  let listed :=
    TaskList.handleDeleteTask (Some Samples.bob) succeeded
      (Samples.listing [t1; t2] (Some t1)) in
  let shown :=
    TaskPage.deleteTask (Some Samples.bob) succeeded (Samples.page t1) in
  snd listed
  = [delete_request "t1";
     Toast "Task deleted" "The task has been successfully deleted" false;
     OnTaskUpdate]
  /\ TaskList.tasks (fst listed) = [t1; t2]
  /\ TaskList.displayTasks (fst listed) = [t1; t2]
  /\ TaskPage.task (fst shown) = Some t1.
Proof. repeat split. Qed.

(** C7, amended: both delete handlers send the remote delete first and never
    edit the local collection themselves. When the delete succeeded they
    announce it and ask for fresh data (the [onTaskUpdate] callback or
    [router.refresh()] on the list, navigation to the task index on the
    page); when it failed they ask for nothing and report the failure with a
    destructive toast and a console error. In both cases the tasks held
    locally are the tasks held before. *)
Theorem delete_is_remote_then_refresh u task (e : PostgrestError)
    (resp : WriteResponse) v p
    (Hpending : TaskList.taskToDelete v = Some task)
    (Hshown : TaskPage.task p = Some task) :
  TaskList.tasks (fst (TaskList.handleDeleteTask (Some u) resp v))
  = TaskList.tasks v
  /\ TaskPage.task (fst (TaskPage.deleteTask (Some u) resp p))
     = TaskPage.task p
  /\ snd (TaskList.handleDeleteTask (Some u) succeeded v)
     = [delete_request (Task.id task);
        Toast "Task deleted" "The task has been successfully deleted" false;
        TaskList.refresh v]
  /\ snd (TaskPage.deleteTask (Some u) succeeded p)
     = [delete_request (Task.id task);
        Toast "Task deleted" "The task has been successfully deleted" false;
        RouterPush "/dashboard/tasks"]
  /\ snd (TaskList.handleDeleteTask (Some u) (failed e) v)
     = [delete_request (Task.id task);
        Toast "Failed to delete task" (error_text e) true;
        ConsoleError "Error deleting task:" e]
  /\ snd (TaskPage.deleteTask (Some u) (failed e) p)
     = [delete_request (Task.id task);
        Toast "Failed to delete task" (error_text e) true;
        ConsoleError "Error deleting task:" e].
Proof.
  unfold TaskList.handleDeleteTask, TaskPage.deleteTask.
  rewrite Hpending, Hshown; simpl.
  repeat split; destruct (write_error resp); simpl; rewrite ?Hshown;
    reflexivity.
Qed.

Lemma delete_is_remote_then_refresh_witness :
  let t1 := Samples.chore "t1" "u-alice" None "todo" in
  let t2 := Samples.chore "t2" "u-alice" None "todo" in
  let v := Samples.listing [t1; t2] (Some t1) in
  TaskList.tasks
    (fst (TaskList.handleDeleteTask (Some Samples.bob)
            (failed Samples.timeout) v)) = [t1; t2]
  /\ snd (TaskList.handleDeleteTask (Some Samples.bob)
            (failed Samples.timeout) v)
     = [delete_request "t1";
        Toast "Failed to delete task" "timeout" true;
        ConsoleError "Error deleting task:" Samples.timeout].
Proof.
  pose proof (delete_is_remote_then_refresh Samples.bob
                (Samples.chore "t1" "u-alice" None "todo") Samples.timeout
                (failed Samples.timeout)
                (Samples.listing
                   [Samples.chore "t1" "u-alice" None "todo";
                    Samples.chore "t2" "u-alice" None "todo"]
                   (Some (Samples.chore "t1" "u-alice" None "todo")))
                (Samples.page (Samples.chore "t1" "u-alice" None "todo"))
                eq_refl eq_refl) as H.
  split; [exact (proj1 H) | exact (proj1 (proj2 (proj2 (proj2 (proj2 H)))))].
Defined.

End StatusAndDelete.

(** * Properties of the dashboard *)

Section UpcomingDeadlines.

Import DashboardPage.

Variable parseISO : string -> option Z.
Variable now : Z.

Implicit Types (task a b : Task.t) (l tasks : list Task.t).

Lemma insert_In compareFn a x l :
  In x (insert compareFn a l) <-> x = a \/ In x l.
Proof.
  induction l as [| y l IH]; simpl.
  - intuition.
  - destruct (compareFn a y <=? 0); simpl; [intuition |].
    rewrite IH; intuition.
Qed.

Lemma sort_In compareFn x l : In x (sort compareFn l) <-> In x l.
Proof.
  induction l as [| a l IH]; simpl; [reflexivity |].
  rewrite insert_In, IH; intuition.
Qed.

Lemma compareDue_times a b x y :
  dueTime parseISO a = Some x -> dueTime parseISO b = Some y ->
  compareDue parseISO a b = x - y.
Proof.
  unfold dueTime, compareDue.
  destruct (Task.due_date a) as [da |]; [| discriminate].
  destruct (Task.due_date b) as [db |];
    [| destruct (truthy da); discriminate].
  destruct (truthy da); [| discriminate].
  destruct (truthy db); [| intros _ H; discriminate H].
  simpl; intros -> ->; reflexivity.
Qed.

Lemma due_le_times a b x y :
  dueTime parseISO a = Some x -> dueTime parseISO b = Some y ->
  (due_le parseISO a b <-> x <= y).
Proof. unfold due_le; intros -> ->; reflexivity. Qed.

Lemma due_le_right_timed a b :
  due_le parseISO a b -> timed parseISO b.
Proof.
  unfold due_le.
  destruct (dueTime parseISO a); [| contradiction].
  unfold timed; destruct (dueTime parseISO b) as [y |];
    [eauto | contradiction].
Qed.

Lemma insert_sorted a l :
  timed parseISO a -> Forall (timed parseISO) l ->
  StronglySorted (due_le parseISO) l ->
  StronglySorted (due_le parseISO) (insert (compareDue parseISO) a l).
Proof.
  intros [x Hx] Hl Hs.
  induction Hs as [| y rest Hrest IH Hy]; simpl.
  - repeat constructor.
  - apply Forall_cons_iff in Hl; destruct Hl as [[ty Hty] Hl].
    rewrite (compareDue_times a y x ty Hx Hty).
    destruct (Z.leb_spec (x - ty) 0) as [Hle | Hgt].
    + constructor; [constructor; assumption |].
      constructor; [apply (due_le_times a y x ty Hx Hty); lia |].
      rewrite Forall_forall in Hy |- *; intros z Hz.
      pose proof (Hy z Hz) as Hyz.
      destruct (due_le_right_timed y z Hyz) as [tz Htz].
      apply (due_le_times y z ty tz Hty Htz) in Hyz.
      apply (due_le_times a z x tz Hx Htz); lia.
    + constructor; [apply IH, Hl |].
      rewrite Forall_forall in Hy |- *; intros z Hz.
      apply insert_In in Hz; destruct Hz as [-> | Hz]; [| auto].
      apply (due_le_times y a ty x Hty Hx); lia.
Qed.

Lemma sort_sorted l :
  Forall (timed parseISO) l ->
  StronglySorted (due_le parseISO) (sort (compareDue parseISO) l).
Proof.
  induction l as [| a l IH]; intros Hl; simpl; [constructor |].
  apply Forall_cons_iff in Hl; destruct Hl as [Ha Hl].
  apply insert_sorted; [exact Ha | | apply IH, Hl].
  rewrite Forall_forall in Hl |- *; intros z Hz.
  apply Hl; apply (sort_In (compareDue parseISO)); exact Hz.
Qed.

Lemma firstn_subset (k : nat) l task : In task (firstn k l) -> In task l.
Proof.
  revert l; induction k as [| k IH]; intros [| a l]; simpl; try tauto.
  intros [-> | Hin]; [left; reflexivity | right; apply IH, Hin].
Qed.

Lemma firstn_sorted (k : nat) l :
  StronglySorted (due_le parseISO) l ->
  StronglySorted (due_le parseISO) (firstn k l).
Proof.
  revert l; induction k as [| k IH]; intros l Hs; [constructor |].
  destruct Hs as [| a rest Hrest Ha]; simpl; [constructor |].
  constructor; [apply IH, Hrest |].
  rewrite Forall_forall in Ha |- *; intros z Hz.
  apply Ha, (firstn_subset k), Hz.
Qed.

Lemma firstn_bound (k : nat) l : (List.length (firstn k l) <= k)%nat.
Proof.
  revert l; induction k as [| k IH]; intros [| a l]; simpl; try lia.
  specialize (IH l); lia.
Qed.

(** What passing the filter means, for a list whose due dates are valid. *)
Lemma upcoming_sound tasks task :
  valid_due_dates parseISO tasks -> In task tasks ->
  upcoming parseISO now task = true ->
  exists d ms,
    Task.due_date task = Some d /\ d <> "" /\ parseISO d = Some ms
    /\ dueTime parseISO task = Some ms
    /\ now <= ms /\ Task.status task <> "completed".
Proof.
  intros Hvalid Hin Hup; unfold upcoming in Hup.
  destruct (Task.due_date task) as [d |] eqn:Hd; [| discriminate].
  apply andb_prop in Hup; destruct Hup as [Hup Hst].
  apply andb_prop in Hup; destruct Hup as [Htr Hpast].
  pose proof (Hvalid task d Hin Hd Htr) as Hparse.
  destruct (parseISO d) as [ms |] eqn:Hms; [| contradiction].
  exists d, ms; repeat split.
  - intros ->; discriminate Htr.
  - exact Hms.
  - unfold dueTime; rewrite Hd, Htr; exact Hms.
  - simpl in Hpast; apply negb_true_iff, Z.ltb_ge in Hpast; exact Hpast.
  - intros He; rewrite He in Hst; discriminate Hst.
Qed.

(** C10: on a task list whose due dates are valid timestamps, the upcoming
    deadlines are tasks of the list that carry a due date, are due now or
    later and are not completed; they come in ascending order of due time;
    there are at most five of them. *)
Theorem upcomingTasks_filtered_sorted_capped tasks
    (Hvalid : valid_due_dates parseISO tasks) :
  Forall
    (fun task =>
       In task tasks
       /\ exists d ms,
           Task.due_date task = Some d /\ d <> "" /\ parseISO d = Some ms
           /\ now <= ms /\ Task.status task <> "completed")
    (upcomingTasks parseISO now tasks)
  /\ StronglySorted (due_le parseISO) (upcomingTasks parseISO now tasks)
  /\ (List.length (upcomingTasks parseISO now tasks) <= 5)%nat.
Proof.
  unfold upcomingTasks; repeat split.
  - apply Forall_forall; intros task Hin.
    apply firstn_subset, sort_In, filter_In in Hin.
    destruct Hin as [Hin Hup]; split; [exact Hin |].
    destruct (upcoming_sound tasks task Hvalid Hin Hup)
      as [d [ms [Hd [Hne [Hms [_ [Hnow Hst]]]]]]].
    exists d, ms; auto.
  - apply firstn_sorted, sort_sorted.
    apply Forall_forall; intros task Hin.
    apply filter_In in Hin; destruct Hin as [Hin Hup].
    destruct (upcoming_sound tasks task Hvalid Hin Hup)
      as [d [ms [_ [_ [_ [Hdue _]]]]]].
    exists ms; exact Hdue.
  - apply firstn_bound.
Qed.

End UpcomingDeadlines.

Lemma upcomingTasks_filtered_sorted_capped_witness :
  map Task.id (DashboardPage.upcomingTasks Samples.days 2 Samples.board)
  = ["e"; "a"]
  /\ StronglySorted (DashboardPage.due_le Samples.days)
       (DashboardPage.upcomingTasks Samples.days 2 Samples.board)
  /\ (List.length
        (DashboardPage.upcomingTasks Samples.days 2 Samples.board) <= 5)%nat.
Proof.
  split; [reflexivity |].
  apply (upcomingTasks_filtered_sorted_capped Samples.days 2 Samples.board).
  intros task d Hin Hd _.
  simpl in Hin; repeat destruct Hin as [<- | Hin]; try contradiction;
    simpl in Hd; try discriminate Hd;
    injection Hd as <-; vm_compute; discriminate.
Defined.

(** * Further properties of the notifications popover *)

Section PopoverClicks.

Import NotificationsPopover.

Implicit Types (s : State) (n : Notification) (l : list Notification).

Lemma unread_after_mark i l :
  filter unread (map (mark i) l)
  = filter (fun m => negb (String.eqb (id m) i)) (filter unread l).
Proof.
  induction l as [| a l IH]; simpl; [reflexivity |].
  destruct (String.eqb (id a) i) eqn:Ha.
  - replace (mark i a) with (set_read a) by (unfold mark; now rewrite Ha).
    simpl; destruct (unread a); simpl; rewrite ?Ha; simpl; exact IH.
  - replace (mark i a) with a by (unfold mark; now rewrite Ha).
    destruct (unread a); simpl; rewrite ?Ha; simpl; rewrite IH; reflexivity.
Qed.

Lemma click_state resp n s :
  notifications (fst (handleNotificationClick resp n s))
  = notifications
      (fst (if negb (read n) then markAsRead resp (id n) s else (s, [])))
  /\ unreadCount (fst (handleNotificationClick resp n s))
     = unreadCount
         (fst (if negb (read n) then markAsRead resp (id n) s else (s, []))).
Proof.
  unfold handleNotificationClick.
  destruct (if negb (read n) then markAsRead resp (id n) s else (s, []))
    as [s1 effs1].
  destruct (task_id n) as [t |]; [destruct (truthy t) |]; split; reflexivity.
Qed.

(** X1: clicking an entry that is already read sends nothing to the Data
    Service and leaves the collection and the unread count as they were,
    whatever the Data Service would have answered. *)
Theorem click_on_read_entry_sends_nothing (resp : WriteResponse) n s
    (Hread : read n = true) :
  notifications (fst (handleNotificationClick resp n s)) = notifications s
  /\ unreadCount (fst (handleNotificationClick resp n s)) = unreadCount s
  /\ requests (snd (handleNotificationClick resp n s)) = [].
Proof.
  destruct (click_state resp n s) as [Hn Hc].
  rewrite Hn, Hc, Hread; simpl; repeat split.
  unfold handleNotificationClick; rewrite Hread; simpl.
  destruct (task_id n) as [t |]; [destruct (truthy t) |]; reflexivity.
Qed.

Lemma click_on_read_entry_sends_nothing_witness :
  let result :=
    handleNotificationClick succeeded (Fixtures.about_task "9" true)
      Fixtures.inbox in
  notifications (fst result) = notifications Fixtures.inbox
  /\ unreadCount (fst result) = 2
  /\ requests (snd result) = [].
Proof.
  apply (click_on_read_entry_sends_nothing succeeded
           (Fixtures.about_task "9" true) Fixtures.inbox); reflexivity.
Defined.

(** X2: clicking a rendered unread entry, when the remote update succeeds
    and the popover is well formed (count in step with the scan, ids
    distinct), lowers the unread count by exactly one, removes from the
    unread tab exactly the entries with the clicked id, keeps every other
    entry in place and keeps the count in step with the scan. *)
Theorem click_on_unread_entry_marks_it n s
    (Hwf : well_formed s)
    (Hin : In n (notifications s))
    (Hunread : read n = false) :
  unreadCount (fst (handleNotificationClick succeeded n s))
  = unreadCount s - 1
  /\ consistent (fst (handleNotificationClick succeeded n s))
  /\ unreadTab (fst (handleNotificationClick succeeded n s))
     = filter (fun m => negb (String.eqb (id m) (id n))) (unreadTab s)
  /\ map id (notifications (fst (handleNotificationClick succeeded n s)))
     = map id (notifications s).
Proof.
  pose proof (handleNotificationClick_consistent succeeded n s Hwf Hin)
    as [Hc' _].
  destruct (click_state succeeded n s) as [Hn Hc].
  destruct Hwf as [Hcons Hnd].
  unfold unreadTab; rewrite Hn, Hc, Hunread; simpl.
  repeat split.
  - unfold consistent, scan_unread, unreadTab in Hcons.
    rewrite Hcons, (scan_after_mark (id n) n _ Hnd Hin eq_refl Hunread).
    lia.
  - exact Hc'.
  - apply unread_after_mark.
  - apply map_mark_ids.
Qed.

Lemma click_on_unread_entry_marks_it_witness :
  let after :=
    fst (handleNotificationClick succeeded (Fixtures.about_task "1" false)
           Fixtures.inbox) in
  unreadCount after = 1
  /\ map id (unreadTab after) = ["3"].
Proof.
  assert (Hwf : well_formed Fixtures.inbox).
  { split; [reflexivity |].
    repeat constructor; simpl; intuition discriminate. }
  pose proof (click_on_unread_entry_marks_it
                (Fixtures.about_task "1" false) Fixtures.inbox Hwf
                (or_introl eq_refl) eq_refl) as [Hcount [_ [Htab _]]].
  split; [exact Hcount | rewrite Htab; reflexivity].
Defined.

(** X3: a click on an entry that carries a task navigates to that task and
    closes the popover whether the entry was read or not and whether
    marking it as read succeeded or failed; it navigates exactly once. *)
Theorem click_navigates_whatever_the_answer (resp : WriteResponse) n s
    (t : string)
    (Htask : task_id n = Some t)
    (Hname : t <> "") :
  pushes (snd (handleNotificationClick resp n s))
  = [("/dashboard/tasks/" ++ t)%string]
  /\ isOpen (fst (handleNotificationClick resp n s)) = false.
Proof.
  assert (Ht : truthy t = true).
  { unfold truthy; destruct (String.eqb_spec t ""); [contradiction |].
    reflexivity. }
  unfold handleNotificationClick, markAsRead; rewrite Htask, Ht.
  destruct (negb (read n)); [destruct (write_error resp) |]; simpl;
    split; reflexivity.
Qed.

Lemma click_navigates_whatever_the_answer_witness :
  pushes
    (snd (handleNotificationClick (failed Samples.timeout)
            (Fixtures.about_task "1" false) Fixtures.inbox))
  = ["/dashboard/tasks/t7"]
  /\ isOpen
       (fst (handleNotificationClick (failed Samples.timeout)
               (Fixtures.about_task "1" false) Fixtures.inbox))
     = false.
Proof.
  apply (click_navigates_whatever_the_answer (failed Samples.timeout)
           (Fixtures.about_task "1" false) Fixtures.inbox "t7" eq_refl).
  discriminate.
Defined.

(** X4: on a popover whose count is in step with the scan, a push-delivered
    insert keeps it in step exactly when the delivered record is unread. *)
Theorem push_keeps_count_in_step_iff_unread n s (Hc : consistent s) :
  consistent (onInsert n s) <-> read n = false.
Proof.
  unfold consistent, scan_unread, unreadTab in *; simpl.
  unfold unread at 1; destruct (read n); simpl; rewrite Hc; split;
    intros H; try reflexivity; try discriminate; lia.
Qed.

Lemma push_keeps_count_in_step_iff_unread_witness :
  consistent (onInsert (Samples.note "4" false) Fixtures.inbox)
  /\ ~ consistent (onInsert (Samples.note "4" true) Fixtures.inbox).
Proof.
  split.
  - apply (push_keeps_count_in_step_iff_unread (Samples.note "4" false)
             Fixtures.inbox eq_refl); reflexivity.
  - intros H.
    apply (push_keeps_count_in_step_iff_unread (Samples.note "4" true)
             Fixtures.inbox eq_refl) in H; discriminate H.
Defined.

(** X5: how the read handlers compose when their remote updates succeed.
    [markAllAsRead] after a [markAsRead] gives the state [markAllAsRead]
    alone gives; two [markAsRead] calls give the same state in either
    order. *)
Theorem read_handlers_compose (u : User) (i j : string) s :
  fst (markAllAsRead (Some u) succeeded (fst (markAsRead succeeded i s)))
  = fst (markAllAsRead (Some u) succeeded s)
  /\ fst (markAsRead succeeded j (fst (markAsRead succeeded i s)))
     = fst (markAsRead succeeded i (fst (markAsRead succeeded j s))).
Proof.
  split; simpl; f_equal.
  - rewrite map_map; apply map_ext; intros n.
    unfold mark; destruct (String.eqb (id n) i); reflexivity.
  - rewrite !map_map; apply map_ext; intros n.
    unfold mark at 2 4.
    destruct (String.eqb (id n) i) eqn:Hi, (String.eqb (id n) j) eqn:Hj;
      unfold mark; simpl; rewrite ?Hi, ?Hj; reflexivity.
Qed.

End PopoverClicks.

(** * Further properties of the task list and the task page *)

Section ListAndPage.

Implicit Types (u : User) (task : Task.t) (v : TaskList.View)
  (p : TaskPage.State).

(** X6: the rendered tasks are a prefix of the tasks handed to the list; the
    "View all tasks" link is rendered exactly when that prefix leaves tasks
    out; a positive limit bounds the prefix; and the empty-state card is
    shown only for an empty task list, whatever the limit. *)
Theorem rendered_prefix_and_footer v :
  firstn (List.length (TaskList.displayTasks v)) (TaskList.tasks v)
  = TaskList.displayTasks v
  /\ (TaskListRender.footer v = TaskListRender.ViewAllLink
      <-> (List.length (TaskList.displayTasks v)
           < List.length (TaskList.tasks v))%nat)
  /\ (forall n, TaskList.limit v = Some (S n) ->
       List.length (TaskList.displayTasks v)
       = Nat.min (S n) (List.length (TaskList.tasks v)))
  /\ (TaskListRender.showsEmptyMessage v = true <-> TaskList.tasks v = []).
Proof.
  unfold TaskListRender.footer, TaskListRender.showsEmptyMessage,
    TaskList.displayTasks.
  destruct (TaskList.limit v) as [[| n] |].
  - split; [apply firstn_all |].
    split; [split; [discriminate | lia] |].
    split; [discriminate |].
    destruct (TaskList.tasks v); split; (reflexivity || discriminate).
  - split.
    { rewrite length_firstn.
      destruct (Nat.min_spec (S n) (List.length (TaskList.tasks v)))
        as [[_ ->] | [Hle ->]]; [reflexivity |].
      rewrite firstn_all, firstn_all2 by exact Hle; reflexivity. }
    split; [| split].
    + rewrite length_firstn.
      destruct (Nat.ltb_spec (S n) (List.length (TaskList.tasks v)));
        split; intros Hside; (reflexivity || discriminate Hside || lia).
    + intros m Hm; injection Hm as <-; apply length_firstn.
    + destruct (TaskList.tasks v); split; (reflexivity || discriminate).
  - split; [apply firstn_all |].
    split; [split; [discriminate | lia] |].
    split; [discriminate |].
    destruct (TaskList.tasks v); split; (reflexivity || discriminate).
Qed.

(** X7: a status change asked for an id that is not in the list handed to
    the component still sends the update for that id, but creates no
    notification, whatever the status and the answer. *)
Theorem status_update_for_unlisted_id u (stamp1 stamp2 taskId status : string)
    (resp : WriteResponse) v
    (Hmissing :
       find (fun t => String.eqb (Task.id t) taskId) (TaskList.tasks v)
       = None) :
  requests
    (snd (TaskList.updateTaskStatus (Some u) stamp1 stamp2 resp taskId
            status v))
  = [UpdateRows "tasks"
       [("status", VStr status); ("updated_at", VStr stamp1)]
       [("id", VStr taskId)]]
  /\ inserted_notifications
       (snd (TaskList.updateTaskStatus (Some u) stamp1 stamp2 resp taskId
               status v))
     = [].
Proof.
  unfold TaskList.updateTaskStatus, TaskList.refresh; rewrite Hmissing.
  destruct (write_error resp), (String.eqb status "completed"),
    (TaskList.hasOnTaskUpdate v); split; reflexivity.
Qed.

Lemma status_update_for_unlisted_id_witness :
  inserted_notifications
    (snd (TaskList.updateTaskStatus (Some Samples.bob) "10:00" "10:01"
            succeeded "t9" "completed" Fixtures.two_tasks))
  = [].
Proof.
  apply (status_update_for_unlisted_id Samples.bob "10:00" "10:01" "t9"
           "completed" succeeded Fixtures.two_tasks eq_refl).
Defined.



Lemma with_status_same task : Task.with_status (Task.status task) task = task.
Proof. destruct task; reflexivity. Qed.

Lemma page_step u st p task :
  TaskPage.task p = Some task ->
  TaskPage.task (TaskPageRuns.step (Some u) st p)
  = Some (if accepted (TaskPageRuns.answer st)
          then Task.with_status (TaskPageRuns.asked st) task
          else task).
Proof.
  intros Hshown.
  unfold TaskPageRuns.step, TaskPage.updateTaskStatus, accepted.
  rewrite Hshown.
  destruct (write_error (TaskPageRuns.answer st)); simpl;
    rewrite Hshown; reflexivity.
Qed.

(** X9: after any series of status changes on the task page, the task shown
    is the task shown at the start with its status replaced by the status of
    the last update the Data Service accepted (its own status when none was
    accepted); no other field changes. Without a user nothing changes. *)
Theorem page_shows_last_accepted_status u task
    (steps : list TaskPageRuns.Step) p
    (Hshown : TaskPage.task p = Some task) :
  TaskPage.task (TaskPageRuns.run (Some u) steps p)
  = Some (Task.with_status
            (TaskPageRuns.last_accepted steps (Task.status task)) task)
  /\ TaskPageRuns.run None steps p = p.
Proof.
  split.
  - revert p task Hshown.
    induction steps as [| st steps IH]; intros p task Hshown.
    + simpl; rewrite with_status_same; exact Hshown.
    + unfold TaskPageRuns.run, TaskPageRuns.last_accepted; simpl.
      fold (TaskPageRuns.run (Some u) steps
              (TaskPageRuns.step (Some u) st p)).
      pose proof (page_step u st p task Hshown) as Hstep.
      rewrite (IH _ _ Hstep).
      destruct (accepted (TaskPageRuns.answer st)); reflexivity.
  - induction steps as [| st steps IH]; [reflexivity |].
    unfold TaskPageRuns.run in *; simpl; exact IH.
Qed.

Lemma page_shows_last_accepted_status_witness :
  option_map Task.status
    (TaskPage.task
       (TaskPageRuns.run (Some Samples.bob)
          [Fixtures.press "in_progress" succeeded;
           Fixtures.press "completed" (failed Samples.timeout)]
          (Samples.page Fixtures.plants)))
  = Some "in_progress".
Proof.
  rewrite (proj1 (page_shows_last_accepted_status Samples.bob
                    Fixtures.plants
                    [Fixtures.press "in_progress" succeeded;
                     Fixtures.press "completed" (failed Samples.timeout)]
                    (Samples.page Fixtures.plants) eq_refl)).
  reflexivity.
Defined.

End ListAndPage.

(** * Further properties of the dashboard *)

Section DashboardCounters.

Import DashboardPage DashboardStats.

Variable parseISO : string -> option Z.

Implicit Types (task a b : Task.t) (l tasks : list Task.t) (now later : Z).

Lemma filter_length_split (f g h : Task.t -> bool) l :
  (forall x, h x = f x || g x) -> (forall x, f x && g x = false) ->
  (List.length (filter f l) + List.length (filter g l))%nat
  = List.length (filter h l).
Proof.
  intros Hh Hdisj; induction l as [| x l IH]; simpl; [reflexivity |].
  rewrite (Hh x); specialize (Hdisj x).
  destruct (f x), (g x); simpl in *; try discriminate; lia.
Qed.

Lemma filter_length_le (f g : Task.t -> bool) l :
  (forall x, f x = true -> g x = true) ->
  (List.length (filter f l) <= List.length (filter g l))%nat.
Proof.
  intros Himp; induction l as [| x l IH]; simpl; [lia |].
  specialize (Himp x).
  destruct (f x), (g x); simpl;
    first [lia | discriminate (Himp eq_refl)].
Qed.

Lemma filter_length_disjoint (f g : Task.t -> bool) l :
  (forall x, f x && g x = false) ->
  (List.length (filter f l) + List.length (filter g l) <= List.length l)%nat.
Proof.
  intros Hdisj; induction l as [| x l IH]; simpl; [lia |].
  specialize (Hdisj x).
  destruct (f x), (g x); simpl in *; try discriminate; lia.
Qed.

Lemma dated_split now task :
  dated task = isOverdue parseISO now task || DashboardPage.upcoming parseISO now task.
Proof.
  unfold dated, isOverdue, DashboardPage.upcoming, present, open.
  destruct (Task.due_date task) as [d |]; [| reflexivity].
  destruct (truthy d), (isPast now (parseISO d)),
    (String.eqb (Task.status task) "completed"); reflexivity.
Qed.

Lemma overdue_not_upcoming now task :
  isOverdue parseISO now task && DashboardPage.upcoming parseISO now task = false.
Proof.
  unfold isOverdue, DashboardPage.upcoming, open.
  destruct (Task.due_date task) as [d |]; [| reflexivity].
  destruct (truthy d), (isPast now (parseISO d)),
    (String.eqb (Task.status task) "completed"); reflexivity.
Qed.

Lemma overdue_persists now later task :
  now <= later ->
  isOverdue parseISO now task = true ->
  isOverdue parseISO later task = true.
Proof.
  intros Hlater; unfold isOverdue.
  destruct (Task.due_date task) as [d |]; [| discriminate].
  destruct (truthy d), (open task); simpl;
    rewrite ?andb_false_r, ?andb_true_r; try discriminate.
  destruct (parseISO d) as [ms |]; simpl; [| discriminate].
  rewrite !Z.ltb_lt; lia.
Qed.

Lemma filterAt_constant (clock : nat -> Z) (test : Z -> Task.t -> bool)
    (k : nat) l :
  (forall i, clock i = clock 0%nat) ->
  filterAt clock test k l = filter (test (clock 0%nat)) l.
Proof.
  intros Hconst; revert k; induction l as [| x l IH]; intros k; simpl;
    [reflexivity |].
  rewrite (Hconst k), IH; reflexivity.
Qed.

Lemma clocked_filters_disjoint (clock : nat -> Z) (k1 k2 : nat) l :
  (forall i j, (i <= j)%nat -> clock i <= clock j) ->
  (k1 <= k2)%nat ->
  (List.length (filterAt clock (isOverdue parseISO) k1 l)
   + List.length (filterAt clock (DashboardPage.upcoming parseISO) k2 l)
   <= List.length (filter dated l))%nat.
Proof.
  intros Hclock; revert k1 k2.
  induction l as [| x l IH]; intros k1 k2 Hk; simpl; [lia |].
  assert (Hnext : (k1 + reads x <= k2 + reads x)%nat) by lia.
  specialize (IH _ _ Hnext).
  pose proof (dated_split (clock k1) x) as Hd1.
  pose proof (dated_split (clock k2) x) as Hd2.
  pose proof (overdue_not_upcoming (clock k2) x) as Hno.
  pose proof (overdue_persists (clock k1) (clock k2) x (Hclock _ _ Hk))
    as Hkeep.
  destruct (isOverdue parseISO (clock k1) x);
    destruct (DashboardPage.upcoming parseISO (clock k2) x);
    destruct (dated x); simpl in *;
    try rewrite (Hkeep eq_refl) in *; simpl in *;
    try discriminate; lia.
Qed.

(** X10: in the counters computed from one fetch, where every call of
    [isPast] takes its own reading of a clock that never runs backwards, no
    task is counted both as overdue and as upcoming: the two counters
    together count at most the open tasks that carry a due date, and with
    the completed counter they never exceed the total. The two counters
    count exactly the open tasks with a due date when all readings give the
    same instant, which is when the counters are those of [taskCounts]. *)
Theorem overdue_and_upcoming_never_overlap (clock : nat -> Z) (u : User)
    tasks
    (Hclock : forall i j, (i <= j)%nat -> clock i <= clock j) :
  (overdue (taskCountsClocked parseISO clock u tasks)
   + upcoming (taskCountsClocked parseISO clock u tasks)
   <= List.length (filter dated tasks))%nat
  /\ (overdue (taskCountsClocked parseISO clock u tasks)
      + upcoming (taskCountsClocked parseISO clock u tasks)
      + completed (taskCountsClocked parseISO clock u tasks)
      <= total (taskCountsClocked parseISO clock u tasks))%nat
  /\ ((forall i, clock i = clock 0%nat) ->
      taskCountsClocked parseISO clock u tasks
      = taskCounts parseISO (clock 0%nat) u tasks
      /\ (overdue (taskCountsClocked parseISO clock u tasks)
          + upcoming (taskCountsClocked parseISO clock u tasks))%nat
         = List.length (filter dated tasks)).
Proof.
  assert (Hsum :
            (List.length (filterAt clock (isOverdue parseISO) 0 tasks)
             + List.length
                 (filterAt clock (DashboardPage.upcoming parseISO)
                    (readings tasks) tasks)
             <= List.length (filter dated tasks))%nat).
  { apply clocked_filters_disjoint; [exact Hclock | lia]. }
  split; [exact Hsum |].
  split.
  - simpl.
    assert (Hopen :
              (List.length (filter dated tasks)
               + List.length
                   (filter (fun t => String.eqb (Task.status t) "completed")
                      tasks)
               <= List.length tasks)%nat).
    { apply filter_length_disjoint; intros x; unfold dated, open.
      destruct (present (Task.due_date x)),
        (String.eqb (Task.status x) "completed"); reflexivity. }
    lia.
  - intros Hconst.
    assert (Hsame : taskCountsClocked parseISO clock u tasks
                    = taskCounts parseISO (clock 0%nat) u tasks).
    { unfold taskCountsClocked, taskCounts.
      rewrite !(filterAt_constant clock _ _ _ Hconst); reflexivity. }
    split; [exact Hsame |].
    rewrite Hsame; simpl.
    apply filter_length_split;
      [apply dated_split | apply overdue_not_upcoming].
Qed.

Lemma insert_length compareFn a l :
  List.length (insert compareFn a l) = S (List.length l).
Proof.
  induction l as [| y l IH]; simpl; [reflexivity |].
  destruct (compareFn a y <=? 0); simpl; [reflexivity | now rewrite IH].
Qed.

Lemma sort_length compareFn l :
  List.length (sort compareFn l) = List.length l.
Proof.
  induction l as [| a l IH]; simpl; [reflexivity |].
  rewrite insert_length, IH; reflexivity.
Qed.

(** X11: the "Upcoming Deadlines" card lists as many tasks as the upcoming
    counter counts, up to five. *)
Theorem deadlines_card_matches_counter now (u : User) tasks :
  List.length (upcomingTasks parseISO now tasks)
  = Nat.min 5 (upcoming (taskCounts parseISO now u tasks)).
Proof.
  unfold upcomingTasks.
  rewrite length_firstn, sort_length; reflexivity.
Qed.

Lemma insert_perm compareFn a l : Permutation (a :: l) (insert compareFn a l).
Proof.
  induction l as [| y l IH]; simpl; [reflexivity |].
  destruct (compareFn a y <=? 0); [reflexivity |].
  rewrite perm_swap; apply perm_skip, IH.
Qed.

Lemma sort_perm compareFn l : Permutation l (sort compareFn l).
Proof.
  induction l as [| a l IH]; simpl; [constructor |].
  rewrite <- insert_perm; apply perm_skip, IH.
Qed.

Lemma sorted_app_ordered (xs ys : list Task.t) a b :
  StronglySorted (due_le parseISO) (xs ++ ys) ->
  In a xs -> In b ys -> due_le parseISO a b.
Proof.
  induction xs as [| x xs IH]; simpl; intros Hs Ha Hb; [contradiction |].
  apply StronglySorted_inv in Hs; destruct Hs as [Hs Hx].
  destruct Ha as [-> | Ha]; [| exact (IH Hs Ha Hb)].
  rewrite Forall_forall in Hx; apply Hx, in_or_app; right; exact Hb.
Qed.

(** X12: on a task list whose due dates are valid, the tasks shown on the
    "Upcoming Deadlines" card together with the tasks left out are exactly
    the upcoming tasks, and every task shown is due no later than every task
    left out. *)
Theorem shown_deadlines_are_the_earliest now tasks
    (Hvalid : valid_due_dates parseISO tasks) :
  Permutation (filter (DashboardPage.upcoming parseISO now) tasks)
    (upcomingTasks parseISO now tasks ++ notShown parseISO now tasks)
  /\ (forall a b,
        In a (upcomingTasks parseISO now tasks) ->
        In b (notShown parseISO now tasks) ->
        due_le parseISO a b).
Proof.
  unfold upcomingTasks, notShown.
  split; [rewrite firstn_skipn; apply sort_perm |].
  intros a b Ha Hb.
  apply (sorted_app_ordered _ _ a b) with (2 := Ha) (3 := Hb).
  rewrite firstn_skipn; apply sort_sorted.
  apply Forall_forall; intros task Hin.
  apply filter_In in Hin; destruct Hin as [Hin Hup].
  destruct (upcoming_sound parseISO now tasks task Hvalid Hin Hup)
    as [d [ms [_ [_ [_ [Hdue _]]]]]].
  exists ms; exact Hdue.
Qed.

(** X13: as time passes tasks only move from upcoming to overdue: a task
    that is overdue stays overdue at every later instant, a task that is
    upcoming at a later instant was upcoming before, and the overdue counter
    never decreases while the upcoming counter never increases. *)
Theorem deadlines_only_move_to_overdue now later (u : User) tasks
    (Hlater : now <= later) :
  (forall task,
     isOverdue parseISO now task = true ->
     isOverdue parseISO later task = true)
  /\ (forall task,
        DashboardPage.upcoming parseISO later task = true ->
        DashboardPage.upcoming parseISO now task = true)
  /\ (overdue (taskCounts parseISO now u tasks)
      <= overdue (taskCounts parseISO later u tasks))%nat
  /\ (upcoming (taskCounts parseISO later u tasks)
      <= upcoming (taskCounts parseISO now u tasks))%nat.
Proof.
  assert (Hpast : forall time,
            isPast now time = true -> isPast later time = true).
  { intros [ms |]; simpl; [| discriminate].
    rewrite !Z.ltb_lt; lia. }
  assert (Hover : forall task,
            isOverdue parseISO now task = true ->
            isOverdue parseISO later task = true).
  { intros task; unfold isOverdue.
    destruct (Task.due_date task) as [d |]; [| discriminate].
    destruct (truthy d), (open task); simpl;
      rewrite ?andb_false_r, ?andb_true_r; try discriminate.
    apply Hpast. }
  assert (Hup : forall task,
            DashboardPage.upcoming parseISO later task = true ->
            DashboardPage.upcoming parseISO now task = true).
  { intros task; unfold DashboardPage.upcoming.
    destruct (Task.due_date task) as [d |]; [| discriminate].
    destruct (truthy d),
      (negb (String.eqb (Task.status task) "completed")); simpl;
      rewrite ?andb_false_r, ?andb_true_r; try discriminate.
    specialize (Hpast (parseISO d)).
    destruct (isPast now (parseISO d)); [| reflexivity].
    rewrite (Hpast eq_refl); discriminate. }
  repeat split; try assumption; simpl; apply filter_length_le; assumption.
Qed.

End DashboardCounters.

Lemma shown_deadlines_are_the_earliest_witness :
  map Task.id
    (DashboardPage.upcomingTasks Samples.days 2 Fixtures.busy_board)
  = ["b"; "f"; "d"; "c"; "e"]
  /\ map Task.id (DashboardStats.notShown Samples.days 2 Fixtures.busy_board)
     = ["a"; "g"]
  /\ DashboardPage.due_le Samples.days
       (Samples.chore "e" "u-alice" (Some "xxxxxx") "todo")
       (Samples.chore "a" "u-alice" (Some "xxxxxxx") "todo").
Proof.
  split; [reflexivity | split; [reflexivity |]].
  apply (proj2 (shown_deadlines_are_the_earliest Samples.days 2
                  Fixtures.busy_board
                  ltac:(intros task d Hin Hd _;
                        simpl in Hin;
                        repeat destruct Hin as [<- | Hin];
                        try contradiction;
                        injection Hd as <-; vm_compute; discriminate)));
    simpl; tauto.
Defined.

Lemma overdue_and_upcoming_never_overlap_witness :
  let c :=
    DashboardStats.taskCountsClocked Samples.days Fixtures.ticking
      Samples.alice Samples.board in
  DashboardStats.overdue c = 0%nat
  /\ DashboardStats.upcoming c = 1%nat
  /\ List.length (filter DashboardStats.dated Samples.board) = 3%nat
  /\ (DashboardStats.overdue c + DashboardStats.upcoming c
      <= List.length (filter DashboardStats.dated Samples.board))%nat.
Proof.
  split; [reflexivity | split; [reflexivity | split; [reflexivity |]]].
  apply (overdue_and_upcoming_never_overlap Samples.days Fixtures.ticking
           Samples.alice Samples.board).
  intros i j Hij; unfold Fixtures.ticking; lia.
Defined.

Lemma deadlines_only_move_to_overdue_witness :
  (DashboardStats.overdue
     (DashboardStats.taskCounts Samples.days 2 Samples.alice Samples.board)
   <= DashboardStats.overdue
        (DashboardStats.taskCounts Samples.days 4 Samples.alice
           Samples.board))%nat.
Proof.
  apply (deadlines_only_move_to_overdue Samples.days 2 4 Samples.alice
           Samples.board); lia.
Defined.

(** * Properties of the "My Tasks" page *)

Section TaskFilters.

Import TasksPage.

Variable toLowerCase : string -> string.

Implicit Types (l : list Task.t) (task : Task.t).

Lemma filter_twice (f g : Task.t -> bool) l :
  filter g (filter f l) = filter (fun x => f x && g x) l.
Proof.
  induction l as [| x l IH]; simpl; [reflexivity |].
  destruct (f x); simpl; [destruct (g x) |]; rewrite IH; reflexivity.
Qed.

Lemma filter_all (f : Task.t -> bool) l :
  (forall x, f x = true) -> filter f l = l.
Proof.
  intros Hf; induction l as [| x l IH]; simpl; [reflexivity |].
  rewrite Hf, IH; reflexivity.
Qed.

Lemma applyFilters_passes l (query status priority : string) :
  applyFilters toLowerCase l query status priority
  = filter (passes toLowerCase query status priority) l.
Proof.
  unfold applyFilters, passes.
  destruct (truthy query), (selective status), (selective priority); simpl;
    rewrite ?filter_twice;
    first [ symmetry; apply filter_all; reflexivity
          | apply filter_ext; intros x;
            destruct (matchesQuery toLowerCase query x),
              (String.eqb (Task.status x) status),
              (String.eqb (Task.priority x) priority); reflexivity ].
Qed.

(** X14: [applyFilters] decides each task on its own and keeps the order of
    the list: with no query and both choices at "all" it returns the list
    unchanged; applying the same filters to its own result changes nothing;
    searching first and narrowing the result by status and priority
    afterwards gives what all three give at once; and every task it returns
    is a task of the list that has the selected status and priority. *)
Theorem applyFilters_narrows_in_place l (query status priority : string) :
  applyFilters toLowerCase l "" "all" "all" = l
  /\ applyFilters toLowerCase
       (applyFilters toLowerCase l query status priority)
       query status priority
     = applyFilters toLowerCase l query status priority
  /\ applyFilters toLowerCase
       (applyFilters toLowerCase l query "all" "all") "" status priority
     = applyFilters toLowerCase l query status priority
  /\ (forall task,
        In task (applyFilters toLowerCase l query status priority) ->
        In task l
        /\ (selective status = true -> Task.status task = status)
        /\ (selective priority = true -> Task.priority task = priority)).
Proof.
  rewrite !applyFilters_passes, !filter_twice.
  split; [apply filter_all; reflexivity |].
  split; [apply filter_ext; intros x; apply andb_diag |].
  split.
  - apply filter_ext; intros x; unfold passes; simpl.
    rewrite !andb_true_r; simpl.
    now rewrite <- andb_assoc.
  - intros task Hin; apply filter_In in Hin; destruct Hin as [Hin Hpass].
    split; [exact Hin |].
    unfold passes in Hpass.
    apply andb_prop in Hpass; destruct Hpass as [Hpass Hprio].
    apply andb_prop in Hpass; destruct Hpass as [_ Hstat].
    split; intros Hsel.
    + rewrite Hsel in Hstat; apply String.eqb_eq, Hstat.
    + rewrite Hsel in Hprio; apply String.eqb_eq, Hprio.
Qed.

Lemma tabs_disjoint_length (a b c : string) l :
  a <> b -> a <> c -> b <> c ->
  (List.length (tab a l) + List.length (tab b l) + List.length (tab c l)
   <= List.length l)%nat.
Proof.
  intros Hab Hac Hbc; unfold tab.
  induction l as [| x l IH]; simpl; [lia |].
  destruct (String.eqb_spec (Task.status x) a) as [Ea | _],
    (String.eqb_spec (Task.status x) b) as [Eb | _],
    (String.eqb_spec (Task.status x) c) as [Ec | _]; simpl;
    try lia; congruence.
Qed.

(** X15: under a selected status, the tab of that status holds every task
    the page lists and the tabs of the other statuses are empty; in general
    the three tabs never hold more tasks than the page lists. *)
Theorem status_filter_fills_one_tab l (query status priority : string)
    (Hstatus : selective status = true) :
  tab status (applyFilters toLowerCase l query status priority)
  = applyFilters toLowerCase l query status priority
  /\ (forall other,
        other <> status ->
        tab other (applyFilters toLowerCase l query status priority) = [])
  /\ (forall shown,
        (List.length (todoTasks shown) + List.length (inProgressTasks shown)
         + List.length (completedTasks shown) <= List.length shown)%nat).
Proof.
  rewrite applyFilters_passes; unfold tab.
  assert (Hst : forall x,
            passes toLowerCase query status priority x = true ->
            Task.status x = status).
  { intros x Hx; unfold passes in Hx; rewrite Hstatus in Hx; simpl in Hx.
    apply andb_prop in Hx; destruct Hx as [Hx _].
    apply andb_prop in Hx; destruct Hx as [_ Hx].
    apply String.eqb_eq, Hx. }
  repeat split.
  - rewrite filter_twice; apply filter_ext_in; intros x Hin.
    destruct (passes toLowerCase query status priority x) eqn:Hx;
      [| reflexivity].
    rewrite (Hst x Hx), String.eqb_refl; reflexivity.
  - intros other Hother.
    rewrite filter_twice.
    induction l as [| x l IH]; simpl; [reflexivity |].
    destruct (passes toLowerCase query status priority x) eqn:Hx; simpl;
      [| exact IH].
    rewrite (Hst x Hx).
    destruct (String.eqb_spec status other); [congruence | exact IH].
  - intros shown; apply tabs_disjoint_length; discriminate.
Qed.

End TaskFilters.

Lemma status_filter_fills_one_tab_witness :
  map Task.id
    (TasksPage.applyFilters Fixtures.lower Fixtures.errands "MILK"
       "completed" "all")
  = ["3"]
  /\ TasksPage.todoTasks
       (TasksPage.applyFilters Fixtures.lower Fixtures.errands "MILK"
          "completed" "all")
     = [].
Proof.
  split; [reflexivity |].
  apply (proj1 (proj2
           (status_filter_fills_one_tab Fixtures.lower Fixtures.errands
              "MILK" "completed" "all" eq_refl))).
  discriminate.
Defined.

(** * Properties of the sidebar *)

(** X16: the sidebar shows the same eight entries to every viewer: the two
    entries meant for administrators take the viewer's own role as their
    flag, so they pass the test for administrators and for everybody else,
    signed in or not. *)
Theorem sidebar_shows_every_link_to_everyone (user : option User) :
  Sidebar.nav user = Sidebar.links (Sidebar.isAdmin user)
  /\ map Sidebar.href (Sidebar.nav user)
     = ["/dashboard"; "/dashboard/tasks"; "/dashboard/tasks/created";
        "/dashboard/tasks/overdue"; "/dashboard/tasks/upcoming";
        "/dashboard/team"; "/dashboard/analytics"; "/dashboard/profile"].
Proof.
  unfold Sidebar.nav; destruct (Sidebar.isAdmin user); split; reflexivity.
Qed.

(** * Properties of the session provider and the dashboard layout *)

Section Sessions.

Import AuthProvider.

Implicit Types (s : State) (c : Change).

Lemma change_in_step c s : in_step s -> in_step (fst (change c s)).
Proof.
  unfold in_step; intros Hs.
  destruct c as [outcome | session pd | resp em pw
                 | answer pa stamp em pw nm | threw]; simpl.
  - destruct outcome as [e | session e | [session |] pd]; simpl;
      first [exact Hs | reflexivity].
  - destruct session; reflexivity.
  - unfold signIn; destruct (write_error resp); exact Hs.
  - unfold signUp; destruct (signup_error answer);
      [exact Hs |]; destruct (new_user answer);
      [destruct (write_error pa) |]; exact Hs.
  - destruct threw; exact Hs.
Qed.

Lemma after_in_step (changes : list Change) s :
  in_step s -> in_step (fold_left (fun a c => fst (change c a)) changes s).
Proof.
  revert s; induction changes as [| c changes IH]; intros s Hs; simpl;
    [exact Hs | apply IH, change_in_step, Hs].
Qed.

(** X17: whatever session checks, auth-state events, sign-ins, sign-ups and
    sign-outs have completed, the provider's [isAuthenticated] flag is true
    exactly when it holds a user. Hence the dashboard layout renders its
    pages only while a user is held, and redirects to the login page only
    while none is held and nothing but a blank screen is rendered. *)
Theorem dashboard_content_needs_a_user (changes : list Change) :
  in_step (after changes)
  /\ (DashboardLayout.render (after changes) = DashboardLayout.Content ->
      exists u, user (after changes) = Some u)
  /\ (DashboardLayout.redirect (after changes) = [RouterPush "/login"] ->
      user (after changes) = None
      /\ DashboardLayout.render (after changes) = DashboardLayout.Blank)
  /\ (DashboardLayout.render (after changes) = DashboardLayout.Spinner ->
      DashboardLayout.redirect (after changes) = []).
Proof.
  assert (Hstep : in_step (after changes)).
  { apply after_in_step; reflexivity. }
  unfold in_step, DashboardLayout.render, DashboardLayout.redirect in *.
  destruct (user (after changes)) as [u |], (loading (after changes)),
    (isAuthenticated (after changes));
    repeat split; intros; try discriminate; eauto.
Qed.

(** X18: signing up never logs anybody in and never grants a role: every
    profile row it asks the platform to create has role ["user"] and the
    e-mail and name of the form; one row is asked for exactly when the
    platform accepted the sign-up and returned a user, none otherwise. It
    navigates to the login page, once, exactly when no step failed, and
    nowhere when the sign-up or the profile insert was rejected. *)
Theorem signUp_creates_plain_users_only (answer : SignUpAnswer)
    (profileAnswer : WriteResponse) (stamp email password name : string) s :
  let result := signUp answer profileAnswer stamp email password name s in
  Forall
    (fun row =>
       pr_role row = "user" /\ pr_email row = email /\ pr_name row = name)
    (inserted_profiles (snd result))
  /\ (List.length (inserted_profiles (snd result)) <= 1)%nat
  /\ (signup_error answer <> None -> inserted_profiles (snd result) = [])
  /\ inserted_profiles (snd result)
     = match signup_error answer, new_user answer with
       | None, Some created =>
           [ {| pr_id := auth_id created; pr_email := email;
                pr_name := name; pr_role := "user";
                pr_created_at := stamp |} ]
       | _, _ => []
       end
  /\ navigations (snd result)
     = match signup_error answer, new_user answer,
             write_error profileAnswer with
       | Some _, _, _ => []
       | None, Some _, Some _ => []
       | None, _, _ => ["/login"]
       end
  /\ (navigations (snd result) = ["/login"]
      \/ navigations (snd result) = []
         /\ (signup_error answer <> None
             \/ write_error profileAnswer <> None))
  /\ user (fst result) = user s
  /\ isAuthenticated (fst result) = isAuthenticated s
  /\ loading (fst result) = false.
Proof.
  unfold signUp.
  destruct (signup_error answer) as [e |] eqn:He;
    [| destruct (new_user answer) as [created |];
       [destruct (write_error profileAnswer) as [e |] eqn:Hp |]];
    simpl; repeat split; auto;
    try (intros Hno; contradiction Hno; reflexivity);
    try (destruct (new_user answer); reflexivity);
    try (destruct (write_error profileAnswer); reflexivity);
    (right; split;
     [reflexivity | first [left; discriminate | right; discriminate]]).
Qed.

(** X19: signing in and signing out never write the user or the
    [isAuthenticated] flag themselves (only the session check and the
    auth-state listener do); both end with [loading] false. A rejected
    sign-in does not navigate and shows a destructive toast; an accepted one
    navigates to the dashboard, once. *)
Theorem sign_in_and_out_leave_the_user_to_the_listener
    (resp : WriteResponse) (e : PostgrestError)
    (threw : option PostgrestError) (email password : string) s :
  user (fst (signIn resp email password s)) = user s
  /\ isAuthenticated (fst (signIn resp email password s))
     = isAuthenticated s
  /\ user (fst (signOut threw s)) = user s
  /\ isAuthenticated (fst (signOut threw s)) = isAuthenticated s
  /\ loading (fst (signIn resp email password s)) = false
  /\ loading (fst (signOut threw s)) = false
  /\ navigations (snd (signIn (failed e) email password s)) = []
  /\ navigations (snd (signIn succeeded email password s)) = ["/dashboard"]
  /\ In (Ui (Toast "Sign in failed"
               (message_or e "An error occurred during sign in") true))
       (snd (signIn (failed e) email password s)).
Proof.
  unfold signIn, signOut.
  destruct (write_error resp), threw; simpl; repeat split; auto.
Qed.

End Sessions.

(** * Properties of the new-task page *)

Section NewTasks.

Import NewTaskPage.

Variable Date : Type.
Variable toISOString : Date -> string.
Variable null_data : PostgrestError.

Implicit Types (u : User) (values : TaskFormValues Date).

(** X20: submitting the new-task form asks for exactly one task row, created
    by the acting user and assigned to the chosen user, or to the acting user
    when none was chosen. When the insert is accepted with an id, one
    notification is created if and only if the chosen assignee is another
    user: unread, typed ["task_assigned"], owned by the assignee and
    referring to the new id. A rejected insert creates no notification and
    does not navigate. The form is never left loading. *)
Theorem new_task_notifies_another_assignee u (stamp1 stamp2 taskId : string)
    (e : PostgrestError) (answer : InsertAnswer) values (isLoading : bool) :
  let submit := onSubmit Date toISOString null_data (Some u) stamp1 stamp2 in
  let accepted_with_id :=
    {| new_id := Some taskId; insert_error := None |} in
  let rejected := {| new_id := None; insert_error := Some e |} in
  let note := assignment_row Date u values taskId stamp2 in
  created_tasks (snd (submit answer values isLoading))
  = [taskData Date toISOString u stamp1 values]
  /\ td_created_by (taskData Date toISOString u stamp1 values) = user_id u
  /\ td_assigned_to (taskData Date toISOString u stamp1 values)
     = (if present (assigned_to Date values)
        then or_else (assigned_to Date values) ""
        else user_id u)
  /\ notified (snd (submit accepted_with_id values isLoading))
     = (if assigned_to_other Date u values then [note] else [])
  /\ (row_type note = "task_assigned" /\ row_read note = false
      /\ row_task_id note = taskId)
  /\ (assigned_to_other Date u values = true ->
      row_user_id note
      = td_assigned_to (taskData Date toISOString u stamp1 values)
      /\ row_user_id note <> user_id u)
  /\ notified (snd (submit rejected values isLoading)) = []
  /\ (forall eff,
        In eff (snd (submit rejected values isLoading)) ->
        forall path, eff <> Ui (RouterPush path))
  /\ fst (submit answer values isLoading) = false.
Proof.
  cbv zeta; unfold onSubmit.
  split.
  { destruct (insert_error answer); [reflexivity |].
    destruct (new_id answer);
      destruct (assigned_to_other Date u values); reflexivity. }
  split; [reflexivity |].
  split.
  { unfold taskData, present, or_else; simpl.
    destruct (assigned_to Date values) as [a |]; [| reflexivity].
    destruct (truthy a); reflexivity. }
  split.
  { simpl; destruct (assigned_to_other Date u values); reflexivity. }
  split; [repeat split |].
  split.
  { unfold assigned_to_other, assignment_row, taskData, or_else; simpl.
    destruct (assigned_to Date values) as [a |]; [| discriminate].
    destruct (truthy a); [| discriminate]; simpl.
    intros Hother; split; [reflexivity |].
    intros ->; rewrite String.eqb_refl in Hother; discriminate Hother. }
  split; [reflexivity |].
  split.
  { simpl; intros eff [<- | [<- | [<- | []]]] path; discriminate. }
  destruct (insert_error answer); [reflexivity |].
  destruct (new_id answer);
    destruct (assigned_to_other Date u values); reflexivity.
Qed.

End NewTasks.

(** * The popover under pushes, and the delete dialog *)

Section PushesAndDeletes.

Import NotificationsPopover PopoverRuns.

Lemma apply_well_formed (op : Op) (s : State) :
  admissible op s -> well_formed s -> well_formed (apply op s).
Proof.
  destruct op as [o | n]; simpl.
  - apply applyLocal_well_formed.
  - intros [Hunread Hfresh] [Hc Hnd]; split.
    + unfold consistent, scan_unread, unreadTab in *; simpl.
      unfold unread at 1; rewrite Hunread; simpl; rewrite Hc; lia.
    + simpl; constructor; assumption.
Qed.

(** X21: start from a popover whose count is in step with the scan and whose
    ids are distinct, and run any sequence of local mutations and pushes in
    which a [markAsRead] that takes effect names an unread record and a push
    delivers an unread record with a new id. The result again has its count
    in step with the scan and distinct ids. *)
Theorem count_stays_in_step_under_pushes (ops : list Op) (s : State)
    (Hwf : well_formed s)
    (Hops : all_admissible ops s) :
  well_formed (run ops s).
Proof.
  revert s Hwf Hops; induction ops as [| op ops IH]; intros s Hwf Hops;
    [exact Hwf |].
  destruct Hops as [Hop Hrest].
  unfold run; simpl; apply IH; [apply apply_well_formed |]; assumption.
Qed.

Lemma count_stays_in_step_under_pushes_witness :
  let final :=
    run [RemoteInsert (Samples.note "4" false);
         Local (MarkRead succeeded "1");
         RemoteInsert (Samples.note "5" false);
         Local (MarkRead succeeded "4")]
      Fixtures.inbox in
  unreadCount final = 2 /\ consistent final.
Proof.
  split; [reflexivity |].
  apply (count_stays_in_step_under_pushes
           [RemoteInsert (Samples.note "4" false);
            Local (MarkRead succeeded "1");
            RemoteInsert (Samples.note "5" false);
            Local (MarkRead succeeded "4")]
           Fixtures.inbox).
  - split; [reflexivity |].
    repeat constructor; simpl; intuition discriminate.
  - simpl; repeat split; try (intuition discriminate).
    + intros _; exists (Fixtures.about_task "1" false); simpl; auto.
    + intros _; exists (Samples.note "4" false); simpl; auto.
Defined.

(** X22: a delete confirmed in the dialog is sent once. After
    [confirmDeleteTask] the dialog is open; [handleDeleteTask] then sends
    one delete for the confirmed task's id and, whatever the answer, closes
    the dialog, forgets the task and clears [isUpdating]; running the
    handler again sends nothing and changes nothing. Without a user the
    handler only closes the dialog. *)
Theorem confirmed_delete_is_sent_once (u : User) (task : Task.t)
    (resp again : WriteResponse) (v : TaskList.View) :
  let confirmed := TaskList.confirmDeleteTask task v in
  let first := TaskList.handleDeleteTask (Some u) resp confirmed in
  let second := TaskList.handleDeleteTask (Some u) again (fst first) in
  TaskList.deleteDialogOpen confirmed = true
  /\ requests (snd first) = [DeleteRows "tasks" [("id", VStr (Task.id task))]]
  /\ TaskList.deleteDialogOpen (fst first) = false
  /\ TaskList.taskToDelete (fst first) = None
  /\ TaskList.isUpdating (fst first) = false
  /\ second = (fst first, [])
  /\ TaskList.handleDeleteTask None resp confirmed
     = (TaskList.close_dialog confirmed, [])
  /\ TaskList.taskToDelete (TaskList.close_dialog confirmed) = Some task.
Proof.
  cbv zeta; unfold TaskList.handleDeleteTask, TaskList.refresh; simpl.
  destruct (write_error resp), (TaskList.hasOnTaskUpdate v); simpl;
    repeat split.
Qed.

End PushesAndDeletes.
